(** * Similar Literature Finder ([gs.py]): result normalisation, de-duplication,
    ranking and link rendering.

    The development embeds the data-shaping part of [gs.py]:
    [parse_scholarly_papers], [make_clickable] and the part of [main] that
    runs between the search call and the rendering of the table (fetch loop,
    [drop_duplicates], the two sorting branches, the link column).

    Modelling choices.
    - Python values are dynamically typed: a search hit is whatever the
      search client yields.  [pyval] is the universe of values the model
      covers; operations that Python would reject return [Raise].
    - Characters are the 8-bit characters of [string].  Floating point
      numbers are not modelled, except for the missing-value marker NaN and
      for the infinities that [pd.to_numeric] may read in a [str].  Python
      integers are unbounded; the cast [astype(int)] of the sort column is
      to int64 and is written with its wrap-around.  The dtype pandas
      infers for the other columns is not modelled, so the statements about
      sorting are made for numbers up to 2^53 in magnitude, which an int64
      and a float64 column hold alike.
    - A [DataFrame] is a header of column names and a list of rows.  The
      row labels (index) are never read by the program ([to_html] is called
      with [index=False]) and are left out.
    - Three library functions are taken as parameters of the model, because
      their behaviour is fixed by pandas / numpy / CPython and not by
      [gs.py]: the conversion of a [str] cell to a number
      ([pd.to_numeric]), the index sort behind [sort_values]
      ([ndarray.argsort], default kind), and [repr] of containers.  The
      general statements hold for every choice of them; worked examples use
      the instances [plain_integer], [Npy.argsort] and [repr_unused], and
      say of a sorted frame only what does not depend on how the index
      sort orders equal keys.  Where that order is the point, the index
      sort is given by its answer on the keys at hand ([answering]). *)

From Stdlib Require Import ZArith List String Ascii Bool Lia Permutation Sorted.
From Stdlib Require Import DecimalString.
Import ListNotations.

Local Open Scope Z_scope.
Local Open Scope list_scope.

(* ===================================================================== *)
(** ** Python values and exceptions *)
(* ===================================================================== *)

#[warnings="-register-all"]
Inductive pyval : Type :=
| PNone                                   (* None *)
| PNaN                                    (* float('nan') *)
| PBool (b : bool)
| PInt (n : Z)
| PStr (s : string)
| PList (items : list pyval)
| PDict (entries : list (string * pyval)).

Inductive exn : Type :=
| AttributeError
| TypeError
| KeyError
| IndexError
| ValueError.

Inductive result (A : Type) : Type :=
| Ok (a : A)
| Raise (e : exn).

Arguments Ok {A} a.
Arguments Raise {A} e.

Definition bind {A B : Type} (m : result A) (k : A -> result B) : result B :=
  match m with
  | Ok a => k a
  | Raise e => Raise e
  end.

Notation "x <- m ;; k" := (bind m (fun x => k))
  (at level 61, m at next level, right associativity).

Definition is_ok {A : Type} (m : result A) : bool :=
  match m with Ok _ => true | Raise _ => false end.

(** [f] over a list, stopping at the first exception. *)
Fixpoint traverse {A B : Type} (f : A -> result B) (l : list A) : result (list B) :=
  match l with
  | [] => Ok []
  | x :: rest => y <- f x ;; ys <- traverse f rest ;; Ok (y :: ys)
  end.

(** A [dict] with [str] keys, in insertion order. *)
Definition pydict : Type := list (string * pyval).

Fixpoint dict_get (d : pydict) (k : string) : option pyval :=
  match d with
  | [] => None
  | (k', v) :: d' => if String.eqb k k' then Some v else dict_get d' k
  end.

(** [obj.get(key, default)]: only a dict has a [get] method. *)
Definition py_get (obj : pyval) (key : string) (default : pyval) : result pyval :=
  match obj with
  | PDict d => Ok (match dict_get d key with Some v => v | None => default end)
  | _ => Raise AttributeError
  end.

(** The items of an iterable, all of which must be [str] for [join]. *)
Fixpoint all_str (items : list pyval) : option (list string) :=
  match items with
  | [] => Some []
  | PStr s :: rest =>
      match all_str rest with
      | Some ss => Some (s :: ss)
      | None => None
      end
  | _ :: _ => None
  end.

Definition chars_of (s : string) : list string :=
  map (fun c => String c EmptyString) (list_ascii_of_string s).

(** [sep.join(v)]: a list is joined item by item, a [str] character by
    character, a dict over its keys; anything else is not iterable. *)
Definition py_join (sep : string) (v : pyval) : result string :=
  match v with
  | PList items =>
      match all_str items with
      | Some ss => Ok (String.concat sep ss)
      | None => Raise TypeError
      end
  | PStr s => Ok (String.concat sep (chars_of s))
  | PDict d => Ok (String.concat sep (map fst d))
  | _ => Raise TypeError
  end.

(** [l[:stop]] for an integer [stop]; a negative [stop] counts from the end. *)
Definition py_slice_stop {A : Type} (l : list A) (stop : Z) : list A :=
  if stop <? 0
  then firstn (Z.to_nat (Z.of_nat (List.length l) + stop)) l
  else firstn (Z.to_nat stop) l.

(** Truth value of an object, as tested by [if link]. *)
Definition py_truthy (v : pyval) : bool :=
  match v with
  | PNone => false
  | PNaN => true
  | PBool b => b
  | PInt n => negb (n =? 0)
  | PStr s => negb (String.eqb s EmptyString)
  | PList items => match items with [] => false | _ => true end
  | PDict d => match d with [] => false | _ => true end
  end.

(** [v != s] for a [str] literal [s]: only an equal [str] compares equal. *)
Definition py_ne_str (v : pyval) (s : string) : bool :=
  match v with
  | PStr t => negb (String.eqb t s)
  | _ => true
  end.

(** Values that can be hashed; lists and dicts cannot. *)
Definition hashable (v : pyval) : bool :=
  match v with
  | PList _ | PDict _ => false
  | _ => true
  end.

(** Python's [a == b]: [True == 1] and [False == 0], NaN equal to nothing,
    two lists equal when their items are, two dicts when they hold equal
    values under the same keys. *)
Fixpoint py_eqb (a b : pyval) {struct a} : bool :=
  match a, b with
  | PNone, PNone => true
  | PBool x, PBool y => Bool.eqb x y
  | PBool x, PInt n => (if x then 1 else 0) =? n
  | PInt n, PBool y => n =? (if y then 1 else 0)
  | PInt n, PInt m => n =? m
  | PStr s, PStr t => String.eqb s t
  | PList xs, PList ys =>
      (fix items_eqb (xs ys : list pyval) {struct xs} : bool :=
         match xs, ys with
         | [], [] => true
         | x :: xs', y :: ys' => py_eqb x y && items_eqb xs' ys'
         | _, _ => false
         end) xs ys
  | PDict d, PDict e =>
      (List.length d =? List.length e)%nat
      && (fix entries_eqb (d : list (string * pyval)) {struct d} : bool :=
            match d with
            | [] => true
            | (k, v) :: d' =>
                match dict_get e k with
                | Some w => py_eqb v w
                | None => false
                end
                && entries_eqb d'
            end) d
  | _, _ => false
  end.

(** Equality of two values as seen by pandas' object hash table: Python
    [==], with NaN equal to NaN.  A value that cannot be hashed is filed
    under the hash 0 and compared like any other. *)
Definition key_eqb (a b : pyval) : bool :=
  match a, b with
  | PNaN, PNaN => true
  | _, _ => py_eqb a b
  end.

(* ===================================================================== *)
(** ** Data frames *)
(* ===================================================================== *)

Record DataFrame : Type := mkDF {
  columns : list string;
  rows : list (list pyval)
}.

Definition has_column (df : DataFrame) (col : string) : bool :=
  existsb (String.eqb col) (columns df).

Fixpoint col_pos (cols : list string) (col : string) : option nat :=
  match cols with
  | [] => None
  | c :: cs =>
      if String.eqb col c then Some 0%nat
      else match col_pos cs col with
           | Some i => Some (S i)
           | None => None
           end
  end.

(** The cell of a row at a column position. *)
Definition cell (row : list pyval) (i : nat) : pyval := nth i row PNaN.

Fixpoint set_cell (row : list pyval) (i : nat) (v : pyval) : list pyval :=
  match row, i with
  | [], _ => []
  | _ :: r, O => v :: r
  | x :: r, S j => x :: set_cell r j v
  end.

(** Keys of a list of dicts in order of first appearance. *)
Fixpoint union_keys (seen : list string) (data : list pydict) : list string :=
  match data with
  | [] => seen
  | d :: rest =>
      union_keys
        (fold_left
           (fun acc k => if existsb (String.eqb k) acc then acc else acc ++ [k])
           (map fst d) seen)
        rest
  end.

(** [pd.DataFrame(data)] for a list of dicts: one column per key, one row per
    dict, NaN where a dict has no entry for a column. *)
Definition DataFrame_of_records (data : list pydict) : DataFrame :=
  let cols := union_keys [] data in
  mkDF cols
       (map (fun d =>
               map (fun c => match dict_get d c with
                             | Some v => v
                             | None => PNaN
                             end) cols)
            data).

(** [df[col] = v] for a scalar [v]. *)
Definition assign_scalar (df : DataFrame) (col : string) (v : pyval) : DataFrame :=
  match col_pos (columns df) col with
  | Some i => mkDF (columns df) (map (fun r => set_cell r i v) (rows df))
  | None => mkDF (columns df ++ [col]) (map (fun r => r ++ [v]) (rows df))
  end.

Fixpoint positions (cols : list string) (wanted : list string) : result (list nat) :=
  match wanted with
  | [] => Ok []
  | w :: ws =>
      match col_pos cols w with
      | Some i => ps <- positions cols ws ;; Ok (i :: ps)
      | None => Raise KeyError
      end
  end.

(** [df[wanted]] for a list of column names. *)
Definition select_columns (df : DataFrame) (wanted : list string) : result DataFrame :=
  ps <- positions (columns df) wanted ;;
  Ok (mkDF wanted (map (fun r => map (cell r) ps) (rows df))).

(** [df[col]] as the list of its cells. *)
Definition get_column (df : DataFrame) (col : string) : result (list pyval) :=
  match col_pos (columns df) col with
  | Some i => Ok (map (fun r => cell r i) (rows df))
  | None => Raise KeyError
  end.

(** [df[col] = values], cell by cell (the two share their row labels). *)
Definition set_column (df : DataFrame) (col : string) (values : list pyval)
  : result DataFrame :=
  match col_pos (columns df) col with
  | Some i =>
      Ok (mkDF (columns df)
               (map (fun rv => set_cell (fst rv) i (snd rv))
                    (combine (rows df) values)))
  | None => Raise KeyError
  end.

(* ===================================================================== *)
(** ** [parse_scholarly_papers] *)
(* ===================================================================== *)

Definition expected_columns : list string :=
  ["Title"; "Authors"; "Publication Year"; "Number of Citations"; "Link"]%string.

(** The body of the [for] loop: the dict appended to [data] for one paper. *)
Definition paper_record (paper : pyval) : result pydict :=
  bib <- py_get paper "bib" (PDict []) ;;
  title <- py_get bib "title" (PStr "N/A") ;;
  bib <- py_get paper "bib" (PDict []) ;;
  names <- py_get bib "author" (PList []) ;;
  authors <- py_join ", " names ;;
  bib <- py_get paper "bib" (PDict []) ;;
  pub_year <- py_get bib "pub_year" (PStr "N/A") ;;
  citations <- py_get paper "num_citations" (PInt 0) ;;
  url <- py_get paper "pub_url" (PStr "N/A") ;;
  Ok [("Title", title);
      ("Authors", PStr authors);
      ("Publication Year", pub_year);
      ("Number of Citations", citations);
      ("Link", url)]%string.

(** The loop over [papers[:top_n]], appending to [data]. *)
Fixpoint collect_records (papers : list pyval) (data : list pydict)
  : result (list pydict) :=
  match papers with
  | [] => Ok data
  | paper :: rest =>
      r <- paper_record paper ;;
      collect_records rest (data ++ [r])
  end.

Definition parse_scholarly_papers (papers : list pyval) (top_n : Z)
  : result DataFrame :=
  data <- collect_records (py_slice_stop papers top_n) [] ;;
  let df := DataFrame_of_records data in
  let df :=
    fold_left
      (fun df col => if has_column df col then df else assign_scalar df col PNone)
      expected_columns df in
  select_columns df expected_columns.

(* ===================================================================== *)
(** ** [drop_duplicates(subset=col)] *)
(* ===================================================================== *)

(** [duplicated(keep='first')]: a key is marked when an equal key was seen
    at an earlier row. *)
Fixpoint duplicated_from (seen : list pyval) (keys : list pyval) : list bool :=
  match keys with
  | [] => []
  | k :: ks =>
      if existsb (key_eqb k) seen
      then true :: duplicated_from seen ks
      else false :: duplicated_from (k :: seen) ks
  end.

Definition duplicated (keys : list pyval) : list bool := duplicated_from [] keys.

(** [l[~mask]]: the entries whose mask bit is off. *)
Fixpoint drop_masked {A : Type} (mask : list bool) (l : list A) : list A :=
  match mask, l with
  | m :: ms, x :: xs => if m then drop_masked ms xs else x :: drop_masked ms xs
  | _, _ => []
  end.

Definition drop_duplicates (subset : string) (df : DataFrame) : result DataFrame :=
  keys <- get_column df subset ;;
  Ok (mkDF (columns df) (drop_masked (duplicated keys) (rows df))).

(* ===================================================================== *)
(** ** Sorting, link rendering and the retrieval step of [main] *)
(* ===================================================================== *)

Definition dquote : string := String (ascii_of_nat 34) EmptyString.

Definition str_of_Z (n : Z) : string := NilZero.string_of_int (Z.to_int n).

Inductive outcome : Type :=
| NoPapersFound
| ErrorShown (e : exn)
| Table (df : DataFrame).

(** The [for _ in range(top_n * 2)] loop pulling from the search iterator;
    [StopIteration] breaks out of the loop. *)
Fixpoint fetch_loop (n : nat) (search_results : list pyval) (papers : list pyval)
  : list pyval :=
  match n with
  | O => papers
  | S n' =>
      match search_results with
      | [] => papers
      | paper :: rest => fetch_loop n' rest (papers ++ [paper])
      end
  end.

Definition fetch (search_results : list pyval) (top_n : Z) : list pyval :=
  fetch_loop (Z.to_nat (top_n * 2)) search_results [].

(** What [pd.to_numeric(..., errors='coerce')] makes of one cell: NaN where
    the cell is not a number, a finite number, or an infinity.  A finite
    number is given by its integer part, which is what the cast
    [astype(int)] keeps of it. *)
Inductive reading : Type :=
| NotNumber
| Number (n : Z)
| Infinite.

(** An integer cast to int64: the two's complement wrap-around. *)
Definition int64_wrap (n : Z) : Z := (n + 2 ^ 63) mod 2 ^ 64 - 2 ^ 63.

Fixpoint take {A : Type} (indexer : list nat) (l : list A) : result (list A) :=
  match indexer with
  | [] => Ok []
  | i :: rest =>
      match nth_error l i with
      | Some x => xs <- take rest l ;; Ok (x :: xs)
      | None => Raise IndexError
      end
  end.

Section Pipeline.

(** [to_number s]: what [pd.to_numeric(..., errors='coerce')] reads in a
    [str] cell [s]. *)
Variable to_number : string -> reading.

(** [argsort keys]: [keys.argsort(kind='quicksort')] of numpy. *)
Variable argsort : list Z -> list nat.

(** [repr] of a list or dict, used when one is formatted into a string. *)
Variable repr : pyval -> string.

(** [pd.to_numeric(cell, errors='coerce')]: numbers are kept, [True] and
    [False] count as 1 and 0, a [str] is read by [to_number], and
    everything else is coerced to NaN. *)
Definition to_numeric (v : pyval) : reading :=
  match v with
  | PInt n => Number n
  | PBool b => Number (if b then 1 else 0)
  | PStr s => to_number s
  | PNone | PNaN => NotNumber
  | PList _ | PDict _ => NotNumber
  end.

(** [.fillna(d)] *)
Definition fillna (d : Z) (x : reading) : reading :=
  match x with
  | NotNumber => Number d
  | Number _ | Infinite => x
  end.

(** [.astype(int)]: a finite number is cast to int64; NaN and the
    infinities cannot be cast. *)
Definition astype_int (x : reading) : result Z :=
  match x with
  | Number n => Ok (int64_wrap n)
  | NotNumber | Infinite => Raise ValueError
  end.

(** [pd.to_numeric(col, errors='coerce').fillna(0).astype(int)] for one cell. *)
Definition coerce_int (v : pyval) : result Z :=
  astype_int (fillna 0 (to_numeric v)).

(** The indexer of [sort_values(ascending=False)] on an integer column
    ([nargsort]): the keys and their positions are reversed, sorted
    ascending by [argsort], and the result is reversed again. *)
Definition nargsort_descending (keys : list Z) : result (list nat) :=
  let idx := seq 0 (List.length keys) in
  let non_nans := rev keys in
  let non_nan_idx := rev idx in
  indexer <- take (argsort non_nans) non_nan_idx ;;
  Ok (rev indexer).

(** One sorting branch of [main] for the column [by]: the column is
    replaced by its integer coercion (the cast raises when one cell cannot
    be cast), and the rows are put in descending order of the integers now
    in it. *)
Definition sort_by_column (by_ : string) (df : DataFrame) : result DataFrame :=
  col <- get_column df by_ ;;
  ints <- traverse coerce_int col ;;
  df <- set_column df by_ (map PInt ints) ;;
  indexer <- nargsort_descending ints ;;
  sorted <- take indexer (rows df) ;;
  Ok (mkDF (columns df) sorted).

Definition sort_step (sort_by : string) (df : DataFrame) : result DataFrame :=
  if String.eqb sort_by "Number of Citations"
  then sort_by_column "Number of Citations" df
  else sort_by_column "Publication Year" df.

(** [f'{link}']. *)
Definition py_format (v : pyval) : string :=
  match v with
  | PStr s => s
  | PNone => "None"
  | PNaN => "nan"
  | PBool true => "True"
  | PBool false => "False"
  | PInt n => str_of_Z n
  | PList _ | PDict _ => repr v
  end.

Definition anchor (target : string) : string :=
  ("<a href=" ++ dquote ++ target ++ dquote
     ++ " target=" ++ dquote ++ "_blank" ++ dquote ++ ">View Paper</a>")%string.

Definition make_clickable (link : pyval) : string :=
  if py_truthy link && py_ne_str link "N/A"
  then anchor (py_format link)
  else "N/A"%string.

(** [df['Link'] = df['Link'].apply(make_clickable)]. *)
Definition render_links (df : DataFrame) : result DataFrame :=
  links <- get_column df "Link" ;;
  set_column df "Link" (map (fun l => PStr (make_clickable l)) links).

(** The steps of [main] from the parsed frame to the frame that is shown. *)
Definition rank (sort_by : string) (papers : list pyval) (top_n : Z)
  : result DataFrame :=
  papers_df <- parse_scholarly_papers papers top_n ;;
  papers_df <- drop_duplicates "Title" papers_df ;;
  papers_df <- sort_step sort_by papers_df ;;
  render_links papers_df.

(** [main], from the press of the "Retrieve Relevant Papers" button on: the
    search results, the number of papers and the sort option chosen in the
    sidebar are its inputs, the table that is written (or the message shown
    instead) is its outcome. *)
Definition main (search_results : list pyval) (top_n : Z) (sort_by : string)
  : outcome :=
  let papers := fetch search_results top_n in
  match papers with
  | [] => NoPapersFound
  | _ :: _ =>
      match rank sort_by papers top_n with
      | Ok papers_df => Table papers_df
      | Raise e => ErrorShown e
      end
  end.

End Pipeline.

(* ===================================================================== *)
(** ** numpy's index quicksort *)
(* ===================================================================== *)

(** [sort_values] is called without [kind], so numpy sorts the positions
    with its default index sort, which pandas documents as not stable: an
    introsort ([aquicksort]) that partitions around a median of three while
    a segment spans more than [SMALL_QUICKSORT] positions, finishes segments
    by insertion, and falls back to a heap sort when the recursion budget is
    used up.  The functions below follow the generic (non-vectorised)
    routine of numpy; the loops of the C code are bounded by the length of
    the array, given here as fuel.  A numpy built with vectorised sorting
    uses another routine and orders equal keys in another way, so this one
    stands for numpy only where the order of equal keys does not show. *)
Module Npy.

Definition SMALL_QUICKSORT : Z := 16.

Fixpoint put_nth (a : list nat) (i : nat) (x : nat) : list nat :=
  match a, i with
  | [], _ => []
  | _ :: r, O => x :: r
  | y :: r, S j => y :: put_nth r j x
  end.

Section Keys.

(** The array of keys being sorted; [a] below is the array of positions
    that is permuted ([tosort]). *)
Variable v : list Z.

Definition key (i : nat) : Z := nth i v 0.
Definition get (a : list nat) (p : Z) : nat := nth (Z.to_nat p) a 0%nat.
Definition put (a : list nat) (p : Z) (x : nat) : list nat :=
  put_nth a (Z.to_nat p) x.
Definition swap (a : list nat) (p q : Z) : list nat :=
  put (put a p (get a q)) q (get a p).
Definition less_at (a : list nat) (p q : Z) : bool :=
  key (get a p) <? key (get a q).

(** [do { ++pi; } while (v[*pi] < vp)] *)
Fixpoint scan_up (fuel : nat) (a : list nat) (vp : Z) (pi : Z) : Z :=
  match fuel with
  | O => pi
  | S f =>
      let pi := pi + 1 in
      if key (get a pi) <? vp then scan_up f a vp pi else pi
  end.

(** [do { --pj; } while (vp < v[*pj])] *)
Fixpoint scan_down (fuel : nat) (a : list nat) (vp : Z) (pj : Z) : Z :=
  match fuel with
  | O => pj
  | S f =>
      let pj := pj - 1 in
      if vp <? key (get a pj) then scan_down f a vp pj else pj
  end.

Fixpoint exchange_loop (fuel : nat) (a : list nat) (vp : Z) (pi pj : Z)
  : list nat * Z :=
  match fuel with
  | O => (a, pi)
  | S f =>
      let pi := scan_up (List.length a) a vp pi in
      let pj := scan_down (List.length a) a vp pj in
      if pi >=? pj then (a, pi)
      else exchange_loop f (swap a pi pj) vp pi pj
  end.

(** One partition of the segment [pl .. pr]; returns the permuted
    positions and the final place [pi] of the pivot. *)
Definition partition (a : list nat) (pl pr : Z) : list nat * Z :=
  let pm := pl + Z.shiftr (pr - pl) 1 in
  let a := if less_at a pm pl then swap a pm pl else a in
  let a := if less_at a pr pm then swap a pr pm else a in
  let a := if less_at a pm pl then swap a pm pl else a in
  let vp := key (get a pm) in
  let pj := pr - 1 in
  let a := swap a pm pj in
  let '(a, pi) := exchange_loop (List.length a) a vp pl pj in
  (swap a pi (pr - 1), pi).

(** A segment left for later, with the recursion budget saved for it. *)
Definition frame : Type := (Z * Z * Z)%type.

(** [while ((pr - pl) > SMALL_QUICKSORT)]: partition, push the larger
    part, go on with the smaller one. *)
Fixpoint partition_while (fuel : nat) (a : list nat) (pl pr : Z)
         (stack : list frame) (cdepth : Z)
  : list nat * Z * Z * list frame :=
  match fuel with
  | O => (a, pl, pr, stack)
  | S f =>
      if pr - pl >? SMALL_QUICKSORT then
        let '(a, pi) := partition a pl pr in
        let cdepth := cdepth - 1 in
        if pi - pl <? pr - pi
        then partition_while f a pl (pi - 1) ((pi + 1, pr, cdepth) :: stack) cdepth
        else partition_while f a (pi + 1) pr ((pl, pi - 1, cdepth) :: stack) cdepth
      else (a, pl, pr, stack)
  end.

(** [while (pj > pl && vp < v[*pk]) { *pj-- = *pk--; }] *)
Fixpoint shift_right (fuel : nat) (a : list nat) (vp : Z) (pj pl : Z)
  : list nat * Z :=
  match fuel with
  | O => (a, pj)
  | S f =>
      if (pj >? pl) && (vp <? key (get a (pj - 1)))
      then shift_right f (put a pj (get a (pj - 1))) vp (pj - 1) pl
      else (a, pj)
  end.

(** [for (pi = pl + 1; pi <= pr; ++pi)]: insertion sort of a segment. *)
Fixpoint insertion_from (fuel : nat) (a : list nat) (pi pl pr : Z) : list nat :=
  match fuel with
  | O => a
  | S f =>
      if pi <=? pr then
        let vi := get a pi in
        let '(a, pj) := shift_right (List.length a) a (key vi) pi pl in
        insertion_from f (put a pj vi) (pi + 1) pl pr
      else a
  end.

Definition insertion (a : list nat) (pl pr : Z) : list nat :=
  insertion_from (List.length a) a (pl + 1) pl pr.

(** Heap sort of the [n] positions from [pl]; the heap is addressed from 1. *)
Definition hget (a : list nat) (pl k : Z) : nat := get a (pl + k - 1).
Definition hput (a : list nat) (pl k : Z) (x : nat) : list nat :=
  put a (pl + k - 1) x.

Fixpoint sift (fuel : nat) (a : list nat) (pl n : Z) (tmp : nat) (i j : Z)
  : list nat :=
  match fuel with
  | O => hput a pl i tmp
  | S f =>
      if j <=? n then
        let j := if (j <? n) && (key (hget a pl j) <? key (hget a pl (j + 1)))
                 then j + 1 else j in
        if key tmp <? key (hget a pl j)
        then sift f (hput a pl i (hget a pl j)) pl n tmp j (j + j)
        else hput a pl i tmp
      else hput a pl i tmp
  end.

Fixpoint heapify (fuel : nat) (a : list nat) (pl n l : Z) : list nat :=
  match fuel with
  | O => a
  | S f =>
      if l >? 0
      then heapify f (sift (List.length a) a pl n (hget a pl l) l (Z.shiftl l 1))
                   pl n (l - 1)
      else a
  end.

Fixpoint extract (fuel : nat) (a : list nat) (pl n : Z) : list nat :=
  match fuel with
  | O => a
  | S f =>
      if n >? 1 then
        let tmp := hget a pl n in
        let a := hput a pl n (hget a pl 1) in
        let n := n - 1 in
        extract f (sift (List.length a) a pl n tmp 1 2) pl n
      else a
  end.

Definition aheapsort (a : list nat) (pl n : Z) : list nat :=
  let a := heapify (List.length a) a pl n (Z.shiftr n 1) in
  extract (List.length a) a pl n.

(** The outer [while (1)] with its explicit stack of pending segments. *)
Fixpoint segments (fuel : nat) (a : list nat) (pl pr : Z)
         (stack : list frame) (cdepth : Z) : list nat :=
  match fuel with
  | O => a
  | S f =>
      let '(a, stack) :=
        if cdepth <? 0
        then (aheapsort a pl (pr - pl + 1), stack)
        else
          let '(a, pl, pr, stack) :=
            partition_while (List.length a) a pl pr stack cdepth in
          (insertion a pl pr, stack) in
      match stack with
      | [] => a
      | (pl, pr, cdepth) :: stack => segments f a pl pr stack cdepth
      end
  end.

Definition aquicksort (tosort : list nat) : list nat :=
  let num := Z.of_nat (List.length tosort) in
  segments (S (List.length tosort)) tosort 0 (num - 1) [] (Z.log2 num * 2).

End Keys.

(** [keys.argsort(kind='quicksort')] *)
Definition argsort (keys : list Z) : list nat :=
  aquicksort keys (seq 0 (List.length keys)).

End Npy.



(** The contract of an index sort on one array of keys: the result lists
    every position exactly once, and the keys read in that order ascend. *)
Fixpoint ascending (l : list Z) : bool :=
  match l with
  | [] => true
  | x :: rest =>
      match rest with
      | [] => true
      | y :: _ => (x <=? y) && ascending rest
      end
  end.

Definition argsort_ok (keys : list Z) (indexer : list nat) : bool :=
  (List.length indexer =? List.length keys)%nat
  && forallb (fun i => existsb (Nat.eqb i) indexer) (seq 0 (List.length keys))
  && ascending (map (fun i => nth i keys 0) indexer).

(** A reader of plain integer literals (an optional minus sign and decimal
    digits) and of the spellings [inf] and [-inf] of the infinities, on
    which it agrees with pandas; it is the [to_number] of the worked
    examples, whose cells are such literals or not numbers at all. *)
Definition plain_integer (s : string) : reading :=
  if String.eqb s "inf" || String.eqb s "-inf" then Infinite
  else match NilZero.int_of_string s with
       | Some n => Number (Z.of_int n)
       | None => NotNumber
       end.

(** An index sort known by its answer on the one array of keys at hand. *)
Definition answering (indexer : list nat) (keys : list Z) : list nat := indexer.

(* ===================================================================== *)
(** ** Vocabulary of the properties *)
(* ===================================================================== *)

Definition is_str (v : pyval) : bool :=
  match v with PStr _ => true | _ => false end.

(** What [', '.join] accepts: a list of [str], or a [str], or a dict. *)
Definition joinable (v : pyval) : bool :=
  match v with
  | PList items => forallb is_str items
  | PStr _ | PDict _ => true
  | _ => false
  end.

(** A hit whose fields, where present, have the shape the search client
    documents: the hit is a mapping, its ['bib'] entry is a mapping, and the
    ['author'] entry of that can be joined.  Every field may be absent. *)
Definition well_formed_hit (h : pyval) : bool :=
  match h with
  | PDict d =>
      match dict_get d "bib" with
      | None => true
      | Some (PDict b) =>
          match dict_get b "author" with
          | None => true
          | Some names => joinable names
          end
      | Some _ => false
      end
  | _ => false
  end.

(** The entry of a hit's ['bib'] mapping, [None] when the hit has no
    ['bib'] or the mapping has no such key. *)
Definition bib_entry (d : pydict) (k : string) : option pyval :=
  match dict_get d "bib" with
  | Some (PDict b) => dict_get b k
  | _ => None
  end.

(** The cell of a row under a column name. *)
Definition row_cell (df : DataFrame) (row : list pyval) (col : string)
  : option pyval :=
  match col_pos (columns df) col with
  | Some i => nth_error row i
  | None => None
  end.

(** Keeping first occurrences, said by position: entry [i] stays when no
    earlier key equals key [i]. *)
Definition first_occurrence (keys : list pyval) (i : nat) : bool :=
  negb (existsb (key_eqb (nth i keys PNaN)) (firstn i keys)).

Definition keep_first {A : Type} (keys : list pyval) (l : list A) : list A :=
  map snd
      (filter (fun ix => first_occurrence keys (fst ix))
              (combine (seq 0 (List.length l)) l)).

(** The title a hit is filed under. *)
Definition hit_title (h : pyval) : pyval :=
  match h with
  | PDict d => match bib_entry d "title" with Some t => t | None => PStr "N/A" end
  | _ => PStr "N/A"
  end.

Definition lacks_title (h : pyval) : bool :=
  match h with
  | PDict d => match bib_entry d "title" with Some _ => false | None => true end
  | _ => false
  end.

(** The rows of a frame that carry a given [str] in their Title cell. *)
Definition titled (df : DataFrame) (s : string) : list (list pyval) :=
  filter (fun row => match row_cell df row "Title" with
                     | Some (PStr t) => String.eqb t s
                     | _ => false
                     end)
         (rows df).

(** The column a sort option selects. *)
Definition sort_column (sort_by : string) : string :=
  if String.eqb sort_by "Number of Citations"
  then "Number of Citations"%string
  else "Publication Year"%string.

Definition descending (l : list Z) : Prop := StronglySorted Z.ge l.

(** A number that an int64 and a float64 column hold alike; NaN counts,
    the infinities do not. *)
Definition representable (x : reading) : bool :=
  match x with
  | NotNumber => true
  | Number n => Z.abs n <=? 2 ^ 53
  | Infinite => false
  end.

(** The number a cell stands for, 0 for a cell that is not a number. *)
Definition number_or_zero (to_number : string -> reading) (v : pyval) : Z :=
  match to_numeric to_number v with
  | Number n => n
  | NotNumber | Infinite => 0
  end.

(** The cells of a frame at a column position. *)
Definition cells (i : nat) (df : DataFrame) : list pyval :=
  map (fun r => cell r i) (rows df).

(** Rows with the cells at position [i] replaced by integers, row by row. *)
Definition with_keys (i : nat) (keys : list Z) (rs : list (list pyval))
  : list (list pyval) :=
  map (fun rv => set_cell (fst rv) i (snd rv)) (combine rs (map PInt keys)).

(** Ties keep their order under an indexer: of two positions with equal
    keys, the earlier one is listed first. *)
Definition ties_in_order (keys : list Z) (indexer : list nat) : bool :=
  forallb
    (fun p =>
       forallb
         (fun q =>
            implb ((p <? q)%nat && (nth (nth p indexer 0%nat) keys 0 =? nth (nth q indexer 0%nat) keys 0))
                  (nth p indexer 0%nat <? nth q indexer 0%nat)%nat)
         (seq 0 (List.length indexer)))
    (seq 0 (List.length indexer)).

Definition or_default (o : option pyval) (d : pyval) : pyval :=
  match o with Some v => v | None => d end.

(** The integer keys a frame is sorted by, for the column at position [i]. *)
Definition sort_keys (to_number : string -> reading) (i : nat) (df : DataFrame)
  : result (list Z) :=
  traverse (coerce_int to_number) (cells i df).

(** A hit that has a title and nothing else. *)
Definition titled_hit (t : string) : pyval :=
  PDict [("bib", PDict [("title", PStr t)])]%string.

(** A hit that has a title and a number of citations. *)
Definition cited_hit (t : string) (n : Z) : pyval :=
  PDict [("bib", PDict [("title", PStr t)]); ("num_citations", PInt n)]%string.

(** Four hits, two without citations followed by two with one each. *)
Definition tied_hits : list pyval :=
  [cited_hit "A" 0; cited_hit "B" 0; cited_hit "C" 1; cited_hit "D" 1]%string.

(** Twenty search results: the first ten carry nine distinct titles ("A"
    comes twice), the last ten carry ten further titles. *)
Definition crowded_results : list pyval :=
  map titled_hit
      ["A"; "A"; "T02"; "T03"; "T04"; "T05"; "T06"; "T07"; "T08"; "T09";
       "U10"; "U11"; "U12"; "U13"; "U14"; "U15"; "U16"; "U17"; "U18"; "U19"]%string.

(** A hyperlink element and the markup that stands for it. *)
Record hyperlink : Type := mkLink {
  href : string;
  target : string;
  text : string
}.

Definition html_of (a : hyperlink) : string :=
  ("<a href=" ++ dquote ++ href a ++ dquote
     ++ " target=" ++ dquote ++ target a ++ dquote ++ ">" ++ text a ++ "</a>")%string.

(** The hit of the second scenario: title "B", year "N/A". *)
Definition hit_B : pyval :=
  PDict [("bib", PDict [("title", PStr "B"); ("pub_year", PStr "N/A")])]%string.

(** A [repr] for the worked examples, none of which formats a container. *)
Definition repr_unused (v : pyval) : string := EmptyString.

(* ===================================================================== *)
(** ** The page around the retrieval: upload, selection, search *)
(* ===================================================================== *)

(** The rest of [main] runs once per interaction: it reads the uploaded
    table, checks its columns, offers the technology names, picks the row
    of the selected one, and on a press of the button queries the search
    client.  The uploaded file is given as what [pd.read_excel] made of it,
    the three select boxes by the position the user picked, the search
    client by what [search_pubs] answers to a query: an exception, or an
    iterator whose [next] yields a hit or raises. *)

Definition required_columns : list string :=
  ["Category (Value Chain)"; "Technology Type"; "Technology Name"]%string.

(** [pd.isna] of one value. *)
Definition isna (v : pyval) : bool :=
  match v with
  | PNone | PNaN => true
  | _ => false
  end.

(** [Series.dropna()]. *)
Definition dropna (values : list pyval) : list pyval :=
  filter (fun v => negb (isna v)) values.

(** [Series.unique()]: the values are hashed, first occurrences are kept in
    their order. *)
Definition unique (values : list pyval) : result (list pyval) :=
  if forallb hashable values
  then Ok (drop_masked (duplicated values) values)
  else Raise TypeError.

(** One entry of [column == value]: a missing entry, or a missing value,
    compares unequal to everything. *)
Definition eq_scalar (x value : pyval) : bool :=
  if isna x || isna value then false else key_eqb x value.

(** [l[mask]]: the entries whose mask bit is on. *)
Fixpoint boolean_index {A : Type} (mask : list bool) (l : list A) : list A :=
  match mask, l with
  | m :: ms, x :: xs => if m then x :: boolean_index ms xs else boolean_index ms xs
  | _, _ => []
  end.

(** [l.iloc[0]]. *)
Definition iloc0 {A : Type} (l : list A) : result A :=
  match l with
  | [] => Raise IndexError
  | x :: _ => Ok x
  end.

(** [st.selectbox(label, options)]: the option at the position the user
    picked, the first option when nothing was picked, and [none] when
    there is no option at all. *)
Definition selectbox {A : Type} (none : A) (options : list A) (choice : nat) : A :=
  nth choice options (hd none options).

Definition top_n_options : list Z := [10; 20; 30].

Definition sort_options : list string :=
  ["Publication Year"; "Number of Citations"]%string.

(** [df['Technology Name'].dropna().unique()]. *)
Definition technology_names (df : DataFrame) : result (list pyval) :=
  names <- get_column df "Technology Name" ;;
  unique (dropna names).

(** [df[df['Technology Name'] == selected_technology].iloc[0]]. *)
Definition select_row (df : DataFrame) (selected_technology : pyval)
  : result (list pyval) :=
  names <- get_column df "Technology Name" ;;
  iloc0 (boolean_index (map (fun x => eq_scalar x selected_technology) names)
                       (rows df)).

(** [selected_row.get(col, 'N/A')]. *)
Definition row_get (df : DataFrame) (row : list pyval) (col : string) (default : pyval)
  : pyval :=
  match row_cell df row col with
  | Some v => v
  | None => default
  end.

(** The fetch loop on an iterator whose [next] may raise: [StopIteration]
    (the end of the list) breaks out of the loop, any other exception
    leaves it. *)
Fixpoint fetch_next (n : nat) (search_results : list (result pyval))
         (papers : list pyval) : result (list pyval) :=
  match n with
  | O => Ok papers
  | S n' =>
      match search_results with
      | [] => Ok papers
      | Ok paper :: rest => fetch_next n' rest (papers ++ [paper])
      | Raise e :: _ => Raise e
      end
  end.

(** What one run of the page ends with. *)
Inductive page : Type :=
| AwaitingUpload                  (* "Awaiting file upload." *)
| FileError (e : exn)             (* "Error reading the file: ..." *)
| MissingColumns                  (* "The file must contain these columns: ..." *)
| FormShown (selected_technology selected_category selected_tech_type : pyval)
| Retrieved (o : outcome).

Section Page.

Variable to_number : string -> reading.
Variable argsort : list Z -> list nat.
Variable repr : pyval -> string.

(** [scholarly.search_pubs(query)]. *)
Variable search_pubs : string -> result (list (result pyval)).

(** The [with st.spinner(...)] block: what a press of the button does. *)
Definition button_pressed (selected_technology : pyval) (top_n : Z) (sort_by : string)
  : outcome :=
  let query := (py_format repr selected_technology ++ " [methane mitigation]")%string in
  match (search_results <- search_pubs query ;;
         fetch_next (Z.to_nat (top_n * 2)) search_results []) with
  | Raise e => ErrorShown e
  | Ok [] => NoPapersFound
  | Ok (paper :: rest) =>
      match rank to_number argsort repr sort_by (paper :: rest) top_n with
      | Ok papers_df => Table papers_df
      | Raise e => ErrorShown e
      end
  end.

(** The selection made in the sidebar for an uploaded table. *)
Definition sidebar (df : DataFrame) (technology_choice : nat)
  : result (pyval * pyval * pyval) :=
  names <- technology_names df ;;
  let selected_technology := selectbox PNone names technology_choice in
  selected_row <- select_row df selected_technology ;;
  let selected_category := row_get df selected_row "Category (Value Chain)" (PStr "N/A") in
  let selected_tech_type := row_get df selected_row "Technology Type" (PStr "N/A") in
  Ok (selected_technology, selected_category, selected_tech_type).

(** One run of [main]. *)
Definition main_script (uploaded_file : option (result DataFrame))
           (technology_choice top_n_choice sort_choice : nat) (button : bool)
  : page :=
  match uploaded_file with
  | None => AwaitingUpload
  | Some (Raise e) => FileError e
  | Some (Ok df) =>
      if forallb (has_column df) required_columns then
        match sidebar df technology_choice with
        | Raise e => FileError e
        | Ok (selected_technology, selected_category, selected_tech_type) =>
            let top_n := selectbox 0 top_n_options top_n_choice in
            let sort_by := selectbox EmptyString sort_options sort_choice in
            if button
            then Retrieved (button_pressed selected_technology top_n sort_by)
            else FormShown selected_technology selected_category selected_tech_type
        end
      else MissingColumns
  end.

End Page.

(** Three search results: two titled "A", one titled "B" with no year. *)
Definition sample_results : list pyval :=
  [PDict [("bib", PDict [("title", PStr "A"); ("pub_year", PStr "2019")]);
          ("num_citations", PInt 5); ("pub_url", PStr "http://a")];
   PDict [("bib", PDict [("title", PStr "B")])];
   PDict [("bib", PDict [("title", PStr "A"); ("pub_year", PInt 2021)])]]%string.

(** An uploaded table of four technologies; the name "Flare" comes twice
    and one name is missing. *)
Definition sample_table : DataFrame :=
  mkDF required_columns
       [[PStr "Upstream"; PStr "Capture"; PStr "Flare"];
        [PStr "Midstream"; PStr "Detect"; PNone];
        [PStr "Downstream"; PStr "Detect"; PStr "Sniffer"];
        [PStr "Midstream"; PStr "Burn"; PStr "Flare"]]%string.

(** Titles no two of which are equal. *)
Definition distinct_keys (keys : list pyval) : Prop :=
  ForallOrdPairs (fun a b => key_eqb a b = false) keys.

(* ===================================================================== *)
(** * Properties *)
(* ===================================================================== *)

(** ** The Python primitives on small inputs *)

Example join_list_of_names :
  py_join ", " (PList [PStr "Ada"; PStr "Bob"; PStr "Cy"]) = Ok "Ada, Bob, Cy"%string.
Proof. reflexivity. Qed.

Example join_nothing : py_join ", " (PList []) = Ok EmptyString.
Proof. reflexivity. Qed.

Example join_str_by_character : py_join ", " (PStr "Ada") = Ok "A, d, a"%string.
Proof. reflexivity. Qed.

Example join_rejects_none : py_join ", " PNone = Raise TypeError.
Proof. reflexivity. Qed.

Example slice_within : py_slice_stop [1; 2; 3; 4] 2 = [1; 2].
Proof. reflexivity. Qed.

Example slice_past_the_end : py_slice_stop [1; 2; 3] 10 = [1; 2; 3].
Proof. reflexivity. Qed.

Example slice_negative_stop : py_slice_stop [1; 2; 3] (-1) = [1; 2].
Proof. reflexivity. Qed.

Example get_on_none : py_get PNone "title" (PStr "N/A") = Raise AttributeError.
Proof. reflexivity. Qed.

Example format_negative_int : py_format repr_unused (PInt (-12)) = "-12"%string.
Proof. reflexivity. Qed.

Example plain_integer_reads :
  map plain_integer ["2020"; "-3"; "N/A"; ""; "inf"]%string
  = [Number 2020; Number (-3); NotNumber; NotNumber; Infinite].
Proof. reflexivity. Qed.

Example int64_wrap_at_the_ends :
  map int64_wrap [0; -1; 2 ^ 63 - 1; 2 ^ 63; - 2 ^ 63; 2 ^ 64 - 1]
  = [0; -1; 2 ^ 63 - 1; - 2 ^ 63; - 2 ^ 63; -1].
Proof. reflexivity. Qed.

Example equal_lists_are_duplicates :
  duplicated [PList [PStr "A"]; PList [PStr "B"]; PList [PStr "A"];
              PDict [("k", PInt 1)]; PDict [("k", PBool true)]; PStr "A"]%string
  = [false; false; true; false; true; false].
Proof. reflexivity. Qed.

Example duplicated_marks_later_equals :
  duplicated [PStr "A"; PStr "B"; PStr "A"; PInt 1; PBool true; PNone; PNone]
  = [false; false; true; false; true; false; true].
Proof. reflexivity. Qed.

Example argsort_small :
  Npy.argsort [30; 10; 20; 5] = [3; 1; 2; 0]%nat.
Proof. reflexivity. Qed.

Example nargsort_descending_small :
  nargsort_descending Npy.argsort [30; 10; 20; 5] = Ok [0; 2; 1; 3]%nat.
Proof. reflexivity. Qed.

Example fetch_stops_at_exhaustion :
  fetch [PNone; PNone; PNone] 10 = [PNone; PNone; PNone]
  /\ List.length (fetch (repeat PNone 50) 10) = 20%nat.
Proof. split; reflexivity. Qed.

(** ** The result monad and [traverse] *)

Lemma traverse_length {A B : Type} (f : A -> result B) (l : list A) (ys : list B) :
  traverse f l = Ok ys -> List.length ys = List.length l.
Proof.
  revert ys; induction l as [|x l IH]; simpl; intros ys H.
  - now inversion H.
  - destruct (f x) as [y|e]; simpl in H; [|discriminate].
    destruct (traverse f l) as [ys'|e]; simpl in H; [|discriminate].
    inversion H; subst; simpl. now rewrite (IH ys').
Qed.

Lemma traverse_is_ok {A B : Type} (f : A -> result B) (l : list A) :
  is_ok (traverse f l) = forallb (fun x => is_ok (f x)) l.
Proof.
  induction l as [|x l IH]; simpl; [reflexivity|].
  destruct (f x) as [y|e]; simpl; [|reflexivity].
  rewrite <- IH. now destruct (traverse f l).
Qed.

Lemma traverse_nth {A B : Type} (f : A -> result B) (l : list A) (ys : list B) :
  traverse f l = Ok ys ->
  forall i x, nth_error l i = Some x ->
  exists y, f x = Ok y /\ nth_error ys i = Some y.
Proof.
  revert ys; induction l as [|a l IH]; simpl; intros ys H i x Hi.
  - destruct i; discriminate.
  - destruct (f a) as [y|e] eqn:Ha; simpl in H; [|discriminate].
    destruct (traverse f l) as [ys'|e]; simpl in H; [|discriminate].
    inversion H; subst.
    destruct i as [|i]; simpl in *.
    + inversion Hi; subst. eauto.
    + eapply IH; eauto.
Qed.

Lemma is_ok_true {A : Type} (m : result A) :
  is_ok m = true -> exists a, m = Ok a.
Proof. destruct m; simpl; [eauto|discriminate]. Qed.

Lemma collect_records_traverse (papers : list pyval) (data : list pydict) :
  collect_records papers data =
  (rs <- traverse paper_record papers ;; Ok (data ++ rs)).
Proof.
  revert data; induction papers as [|p ps IH]; intros data; simpl.
  - now rewrite app_nil_r.
  - destruct (paper_record p) as [r|e]; simpl; [|reflexivity].
    rewrite IH. destruct (traverse paper_record ps); simpl; [|reflexivity].
    now rewrite <- app_assoc.
Qed.

(** ** [paper_record] and [parse_scholarly_papers] *)

Lemma all_str_joinable (items : list pyval) :
  match all_str items with Some _ => true | None => false end = forallb is_str items.
Proof.
  induction items as [|v items IH]; simpl; [reflexivity|].
  destruct v; simpl; try reflexivity.
  rewrite <- IH. now destruct (all_str items).
Qed.

Lemma py_join_is_ok (sep : string) (v : pyval) :
  is_ok (py_join sep v) = joinable v.
Proof.
  destruct v; simpl; try reflexivity.
  rewrite <- all_str_joinable. now destruct (all_str items).
Qed.

Lemma all_str_map_PStr (names : list string) :
  all_str (map PStr names) = Some names.
Proof.
  induction names as [|n names IH]; simpl; [reflexivity|now rewrite IH].
Qed.

Lemma py_join_names (sep : string) (names : list string) :
  py_join sep (PList (map PStr names)) = Ok (String.concat sep names).
Proof. simpl. now rewrite all_str_map_PStr. Qed.

Lemma paper_record_shape (h : pyval) (r : pydict) :
  paper_record h = Ok r ->
  exists d authors,
    h = PDict d
    /\ py_join ", " (or_default (bib_entry d "author") (PList [])) = Ok authors
    /\ r = [("Title", or_default (bib_entry d "title") (PStr "N/A"));
            ("Authors", PStr authors);
            ("Publication Year", or_default (bib_entry d "pub_year") (PStr "N/A"));
            ("Number of Citations", or_default (dict_get d "num_citations") (PInt 0));
            ("Link", or_default (dict_get d "pub_url") (PStr "N/A"))]%string.
Proof.
  destruct h as [| | | | |items|d]; try discriminate.
  unfold paper_record, bib_entry. cbn [py_get bind].
  destruct (dict_get d "bib") as [b|] eqn:Hb.
  - destruct b as [| | | | |items|b]; try discriminate.
    cbn [py_get bind or_default].
    destruct (py_join ", " _) as [authors|e] eqn:Hj; cbn [bind]; [|discriminate].
    intros H; inversion H; subst. exists d, authors. rewrite Hb. cbn [or_default dict_get].
    split; [reflexivity | split; [exact Hj | reflexivity]].
  - cbn [py_get bind dict_get or_default].
    destruct (py_join ", " _) as [authors|e] eqn:Hj; cbn [bind]; [|discriminate].
    intros H; inversion H; subst. exists d, authors. rewrite Hb. cbn [or_default dict_get].
    split; [reflexivity | split; [exact Hj | reflexivity]].
Qed.

Lemma paper_record_is_ok (h : pyval) :
  is_ok (paper_record h) = well_formed_hit h.
Proof.
  destruct h as [| | | | |items|d]; try reflexivity.
  unfold paper_record, well_formed_hit. cbn [py_get bind].
  destruct (dict_get d "bib") as [b|] eqn:Hb.
  - destruct b as [| | | | |items|b]; try reflexivity.
    cbn [py_get bind].
    destruct (dict_get b "author") as [names|] eqn:Ha.
    + rewrite <- (py_join_is_ok ", " names).
      now destruct (py_join ", " names).
    + reflexivity.
  - reflexivity.
Qed.

Lemma paper_record_keys (h : pyval) (r : pydict) :
  paper_record h = Ok r -> map fst r = expected_columns.
Proof.
  intros H. apply paper_record_shape in H.
  destruct H as (d & authors & _ & _ & ->). reflexivity.
Qed.

Lemma traverse_Forall {A B : Type} (f : A -> result B) (P : B -> Prop)
      (l : list A) (ys : list B) :
  (forall x y, f x = Ok y -> P y) ->
  traverse f l = Ok ys -> Forall P ys.
Proof.
  intros HP. revert ys; induction l as [|x l IH]; simpl; intros ys H.
  - inversion H. constructor.
  - destruct (f x) as [y|e] eqn:Hx; simpl in H; [|discriminate].
    destruct (traverse f l) as [ys'|e]; simpl in H; [|discriminate].
    inversion H; subst. constructor; eauto.
Qed.

Lemma union_keys_expected (data : list pydict) :
  Forall (fun r => map fst r = expected_columns) data ->
  union_keys expected_columns data = expected_columns.
Proof.
  induction 1 as [|r data Hr _ IH]; simpl; [reflexivity|].
  rewrite Hr. exact IH.
Qed.

Lemma record_row_expected (r : pydict) :
  map fst r = expected_columns ->
  map (fun c => match dict_get r c with Some v => v | None => PNaN end)
      expected_columns = map snd r.
Proof.
  intros H.
  destruct r as [|[k1 v1] [|[k2 v2] [|[k3 v3] [|[k4 v4] [|[k5 v5] [|? ?]]]]]];
    try discriminate.
  simpl in H. inversion H; subst. reflexivity.
Qed.

Lemma DataFrame_of_records_expected (data : list pydict) :
  data <> [] ->
  Forall (fun r => map fst r = expected_columns) data ->
  DataFrame_of_records data = mkDF expected_columns (map (map snd) data).
Proof.
  intros Hne Hall. unfold DataFrame_of_records.
  assert (Hcols : union_keys [] data = expected_columns).
  { destruct data as [|r data]; [congruence|].
    inversion Hall as [|? ? Hr Hrest]; subst. simpl. rewrite Hr.
    now apply union_keys_expected. }
  rewrite Hcols. f_equal.
  apply map_ext_in. intros r Hin.
  apply record_row_expected.
  rewrite Forall_forall in Hall. now apply Hall.
Qed.

Lemma select_expected (rs : list (list pyval)) :
  Forall (fun r => List.length r = 5%nat) rs ->
  select_columns (mkDF expected_columns rs) expected_columns
  = Ok (mkDF expected_columns rs).
Proof.
  intros Hall. unfold select_columns. simpl. f_equal. f_equal.
  rewrite <- (map_id rs) at 2. apply map_ext_in. intros r Hin.
  rewrite Forall_forall in Hall. specialize (Hall r Hin).
  destruct r as [|c1 [|c2 [|c3 [|c4 [|c5 [|? ?]]]]]]; try discriminate.
  reflexivity.
Qed.

(** The frame built from the records of the considered papers: the five
    expected columns, one row of values per record. *)
Lemma parse_of_records (papers : list pyval) (top_n : Z) (data : list pydict) :
  traverse paper_record (py_slice_stop papers top_n) = Ok data ->
  parse_scholarly_papers papers top_n
  = Ok (mkDF expected_columns (map (map snd) data)).
Proof.
  intros H. unfold parse_scholarly_papers.
  rewrite collect_records_traverse, H. cbn [bind app].
  assert (Hkeys : Forall (fun r => map fst r = expected_columns) data).
  { eapply traverse_Forall; [|exact H]. apply paper_record_keys. }
  destruct data as [|r data].
  - reflexivity.
  - rewrite DataFrame_of_records_expected by (congruence || assumption).
    cbn [fold_left expected_columns has_column columns existsb String.eqb
         Ascii.eqb Bool.eqb orb].
    apply select_expected.
    rewrite Forall_forall in *. intros row Hin.
    apply in_map_iff in Hin. destruct Hin as (r' & <- & Hin).
    rewrite length_map, <- (length_map fst), (Hkeys r' Hin). reflexivity.
Qed.

Lemma parse_raises (papers : list pyval) (top_n : Z) (e : exn) :
  traverse paper_record (py_slice_stop papers top_n) = Raise e ->
  parse_scholarly_papers papers top_n = Raise e.
Proof.
  intros H. unfold parse_scholarly_papers.
  now rewrite collect_records_traverse, H.
Qed.

Lemma parse_is_ok (papers : list pyval) (top_n : Z) :
  is_ok (parse_scholarly_papers papers top_n)
  = forallb well_formed_hit (py_slice_stop papers top_n).
Proof.
  assert (Hf : forall l, forallb well_formed_hit l
                         = forallb (fun h => is_ok (paper_record h)) l).
  { induction l as [|h l IH]; simpl; [reflexivity|].
    now rewrite IH, paper_record_is_ok. }
  rewrite Hf, <- traverse_is_ok.
  destruct (traverse paper_record (py_slice_stop papers top_n)) as [data|e] eqn:H.
  - now rewrite (parse_of_records _ _ _ H).
  - now rewrite (parse_raises _ _ _ H).
Qed.

Lemma py_slice_stop_nonneg {A : Type} (l : list A) (stop : Z) :
  0 <= stop -> py_slice_stop l stop = firstn (Z.to_nat stop) l.
Proof.
  intros H. unfold py_slice_stop.
  destruct (Z.ltb_spec stop 0); [lia|reflexivity].
Qed.

Lemma py_slice_stop_firstn {A : Type} (l : list A) (stop : Z) :
  0 <= stop ->
  py_slice_stop (firstn (Z.to_nat stop) l) stop = py_slice_stop l stop.
Proof.
  intros H. rewrite !py_slice_stop_nonneg by assumption.
  rewrite firstn_firstn. now rewrite Nat.min_id.
Qed.

(** C1.  For every sequence of hits and every limit [top_n >= 0],
    [parse_scholarly_papers] returns a frame of exactly
    [min top_n (length papers)] rows under the five columns Title, Authors,
    Publication Year, Number of Citations, Link, in that order, each row
    having one cell per column.  Hits past the limit are not looked at: the
    hypothesis asks the documented shape of the first [top_n] hits only, and
    the frame is the one obtained from those alone.  For no hits at all the
    frame has the five columns and no row. *)
Theorem normalize_length_and_columns (papers : list pyval) (top_n : Z) :
  0 <= top_n ->
  forallb well_formed_hit (firstn (Z.to_nat top_n) papers) = true ->
  exists df,
    parse_scholarly_papers papers top_n = Ok df
    /\ List.length (rows df) = Nat.min (Z.to_nat top_n) (List.length papers)
    /\ columns df = expected_columns
    /\ Forall (fun row => List.length row = List.length (columns df)) (rows df)
    /\ parse_scholarly_papers (firstn (Z.to_nat top_n) papers) top_n = Ok df
    /\ parse_scholarly_papers [] top_n = Ok (mkDF expected_columns []).
Proof.
  intros Hn Hwf.
  assert (Hok : is_ok (parse_scholarly_papers papers top_n) = true).
  { rewrite parse_is_ok, py_slice_stop_nonneg by assumption. exact Hwf. }
  destruct (traverse paper_record (py_slice_stop papers top_n)) as [data|e] eqn:Ht.
  2:{ rewrite (parse_raises _ _ _ Ht) in Hok. discriminate. }
  exists (mkDF expected_columns (map (map snd) data)).
  split; [now apply parse_of_records|].
  split.
  { cbn [rows]. rewrite length_map. etransitivity; [exact (traverse_length _ _ _ Ht)|].
    rewrite py_slice_stop_nonneg by assumption. apply length_firstn. }
  split; [reflexivity|].
  split.
  { cbn [rows columns]. rewrite Forall_forall. intros row Hin.
    apply in_map_iff in Hin. destruct Hin as (r & <- & Hin).
    assert (Hk : Forall (fun r => map fst r = expected_columns) data).
    { eapply traverse_Forall; [|exact Ht]. apply paper_record_keys. }
    rewrite Forall_forall in Hk.
    now rewrite length_map, <- (length_map fst), (Hk r Hin). }
  split.
  { apply parse_of_records. now rewrite py_slice_stop_firstn. }
  apply (parse_of_records [] top_n []).
  unfold py_slice_stop. destruct (top_n <? 0); now rewrite firstn_nil.
Qed.

Lemma normalize_length_and_columns_witness :
  exists df,
    parse_scholarly_papers
      [PDict [("bib", PDict [("title", PStr "A")])]; PDict []; PNone]%string 2
    = Ok df
    /\ List.length (rows df) = 2%nat.
Proof.
  destruct (normalize_length_and_columns
              [PDict [("bib", PDict [("title", PStr "A")])]; PDict []; PNone]%string 2)
    as (df & Hdf & Hlen & _); [lia | reflexivity |].
  exists df. split; [exact Hdf | exact Hlen].
Defined.

(** C4.  For every considered hit the row at the same position holds, for
    each of the five fields, the value of the field when the hit has it and
    the field's default when it has not: "N/A" for the title, the empty
    string for the authors, "N/A" for the publication year, the integer 0
    for the citation count, "N/A" for the url.  No cell is ever missing.
    Authors given as a list of names are joined with ", " in their order. *)
Theorem absent_fields_take_defaults
        (papers : list pyval) (top_n : Z) (i : nat) (d : pydict) :
  0 <= top_n ->
  forallb well_formed_hit (firstn (Z.to_nat top_n) papers) = true ->
  nth_error (firstn (Z.to_nat top_n) papers) i = Some (PDict d) ->
  exists df row authors,
    parse_scholarly_papers papers top_n = Ok df
    /\ nth_error (rows df) i = Some row
    /\ row_cell df row "Title"
       = Some (or_default (bib_entry d "title") (PStr "N/A"))
    /\ row_cell df row "Authors" = Some (PStr authors)
    /\ (bib_entry d "author" = None -> authors = EmptyString)
    /\ (forall names, bib_entry d "author" = Some (PList (map PStr names)) ->
        authors = String.concat ", " names)
    /\ row_cell df row "Publication Year"
       = Some (or_default (bib_entry d "pub_year") (PStr "N/A"))
    /\ row_cell df row "Number of Citations"
       = Some (or_default (dict_get d "num_citations") (PInt 0))
    /\ row_cell df row "Link"
       = Some (or_default (dict_get d "pub_url") (PStr "N/A")).
Proof.
  intros Hn Hwf Hi.
  assert (Hok : is_ok (parse_scholarly_papers papers top_n) = true).
  { rewrite parse_is_ok, py_slice_stop_nonneg by assumption. exact Hwf. }
  destruct (traverse paper_record (py_slice_stop papers top_n)) as [data|e] eqn:Ht.
  2:{ rewrite (parse_raises _ _ _ Ht) in Hok. discriminate. }
  rewrite <- py_slice_stop_nonneg in Hi by assumption.
  destruct (traverse_nth _ _ _ Ht _ _ Hi) as (r & Hr & Hnth).
  destruct (paper_record_shape _ _ Hr) as (d' & authors & Hd & Hj & ->).
  inversion Hd; subst d'; clear Hd.
  eexists (mkDF expected_columns (map (map snd) data)), _, authors.
  split; [now apply parse_of_records|].
  split.
  { cbn [rows]. exact (map_nth_error (map snd) i data Hnth). }
  split; [reflexivity|].
  split; [reflexivity|].
  split.
  { intros Ha. rewrite Ha in Hj. cbn in Hj. now inversion Hj. }
  split.
  { intros names Ha. rewrite Ha in Hj. cbn [or_default] in Hj.
    rewrite py_join_names in Hj. now inversion Hj. }
  repeat split.
Qed.

Lemma absent_fields_take_defaults_witness :
  exists df row,
    parse_scholarly_papers [PDict [("num_citations", PInt 7)]]%string 10 = Ok df
    /\ nth_error (rows df) 0 = Some row
    /\ row_cell df row "Title" = Some (PStr "N/A")
    /\ row_cell df row "Number of Citations" = Some (PInt 7).
Proof.
  destruct (absent_fields_take_defaults
              [PDict [("num_citations", PInt 7)]]%string 10 0
              [("num_citations", PInt 7)]%string)
    as (df & row & authors & Hdf & Hrow & Ht & _ & _ & _ & _ & Hc & _);
    [lia | reflexivity | reflexivity |].
  exists df, row. repeat split; assumption.
Defined.

(** C6 (counterexample).  A hit whose ['bib'] entry is present but is not a
    mapping (here [None]) makes [parse_scholarly_papers] raise, and so does
    an author list holding something that is not a [str]. *)
Lemma normalize_raises_on_ill_typed_hit :
  parse_scholarly_papers [PDict [("bib", PNone)]]%string 10 = Raise AttributeError
  /\ parse_scholarly_papers
       [PDict [("bib", PDict [("author", PList [PStr "A"; PNone])])]]%string 10
     = Raise TypeError.
Proof. split; vm_compute; reflexivity. Qed.

(** C6 (amended).  [parse_scholarly_papers] returns a frame exactly when
    every considered hit is a mapping whose ['bib'] entry, if present, is a
    mapping and whose ['author'] entry, if present, can be joined; this
    holds for every limit.  Absence is never an error: a hit with no field
    at all, with no ['bib'], or with a ['bib'] that has no ['author'] is
    accepted, and the title, year, citation count and url play no part. *)
Theorem normalize_fails_only_on_ill_typed_hits (papers : list pyval) (top_n : Z) :
  is_ok (parse_scholarly_papers papers top_n)
  = forallb well_formed_hit (py_slice_stop papers top_n)
  /\ (forallb well_formed_hit (py_slice_stop papers top_n) = true ->
      exists df, parse_scholarly_papers papers top_n = Ok df)
  /\ well_formed_hit (PDict []) = true
  /\ (forall d, dict_get d "bib" = None -> well_formed_hit (PDict d) = true)
  /\ (forall d b, dict_get d "bib" = Some (PDict b) ->
                  dict_get b "author" = None -> well_formed_hit (PDict d) = true)
  /\ (forall d b names, dict_get d "bib" = Some (PDict b) ->
                        dict_get b "author" = Some (PList (map PStr names)) ->
                        well_formed_hit (PDict d) = true).
Proof.
  split; [apply parse_is_ok|].
  split.
  { intros H. apply is_ok_true. now rewrite parse_is_ok. }
  split; [reflexivity|].
  split.
  { intros d H. unfold well_formed_hit. now rewrite H. }
  split.
  { intros d b Hb Ha. unfold well_formed_hit. now rewrite Hb, Ha. }
  intros d b names Hb Ha. unfold well_formed_hit. rewrite Hb, Ha. simpl.
  clear. induction names as [|n names IH]; simpl; [reflexivity|exact IH].
Qed.

(** ** [drop_duplicates] *)

Lemma key_eqb_str (k : pyval) (s : string) :
  key_eqb k (PStr s) = true <-> k = PStr s.
Proof.
  destruct k; simpl; split; intros H; try discriminate.
  - apply String.eqb_eq in H. now subst.
  - inversion H. apply String.eqb_refl.
Qed.

Lemma key_eqb_sym (a b : pyval) :
  hashable a = true -> key_eqb a b = key_eqb b a.
Proof.
  destruct a, b; simpl; try reflexivity; try discriminate; intros _.
  - now destruct b, b0.
  - apply Z.eqb_sym.
  - apply Z.eqb_sym.
  - apply Z.eqb_sym.
  - apply String.eqb_sym.
Qed.

Lemma key_eqb_trans (a b c : pyval) :
  hashable b = true ->
  key_eqb a b = true -> key_eqb b c = true -> key_eqb a c = true.
Proof.
  destruct a as [| |x|n|s|?|?], b as [| |y|m|t|?|?]; simpl; try discriminate;
    intros _; try discriminate;
    destruct c as [| |z|p|u|?|?]; simpl; try discriminate; try reflexivity;
    rewrite ?Z.eqb_eq, ?String.eqb_eq, ?Bool.eqb_true_iff;
    try (destruct x); try (destruct y); try (destruct z);
    intros; subst; try reflexivity; try congruence; try lia.
Qed.

Lemma existsb_key_eqb_trans (k k' : pyval) (seen : list pyval) :
  hashable k = true ->
  key_eqb k' k = true ->
  existsb (key_eqb k) seen = true -> existsb (key_eqb k') seen = true.
Proof.
  intros Hh Hk H. apply existsb_exists in H. destruct H as (s & Hin & Hs).
  apply existsb_exists. exists s. split; [assumption|].
  eapply key_eqb_trans; eassumption.
Qed.

Lemma drop_masked_map {A B : Type} (f : A -> B) (mask : list bool) (l : list A) :
  map f (drop_masked mask l) = drop_masked mask (map f l).
Proof.
  revert l; induction mask as [|m mask IH]; intros [|x l]; simpl; try reflexivity.
  destruct m; simpl; now rewrite IH.
Qed.

Lemma drop_masked_all_false {A : Type} (l : list A) :
  drop_masked (repeat false (List.length l)) l = l.
Proof. induction l as [|x l IH]; simpl; [reflexivity|now rewrite IH]. Qed.

Lemma drop_masked_forallb {A : Type} (p : A -> bool) (mask : list bool) (l : list A) :
  forallb p l = true -> forallb p (drop_masked mask l) = true.
Proof.
  revert l; induction mask as [|m mask IH]; intros [|x l]; simpl; try reflexivity.
  intros H. apply andb_prop in H. destruct H as [Hx Hl].
  destruct m; simpl; [now apply IH|]. rewrite Hx. now apply IH.
Qed.

(** The keys that survive are marked by nothing on a second pass. *)
Lemma duplicated_from_survivors (seen keys : list pyval) :
  duplicated_from seen (drop_masked (duplicated_from seen keys) keys)
  = repeat false (List.length (drop_masked (duplicated_from seen keys) keys)).
Proof.
  revert seen; induction keys as [|k keys IH]; intros seen; simpl; [reflexivity|].
  destruct (existsb (key_eqb k) seen) eqn:Hk; simpl.
  - apply IH.
  - rewrite Hk. f_equal. apply IH.
Qed.

Lemma duplicated_from_length (seen keys : list pyval) :
  List.length (duplicated_from seen keys) = List.length keys.
Proof.
  revert seen; induction keys as [|k keys IH]; intros seen; simpl; [reflexivity|].
  destruct (existsb (key_eqb k) seen); simpl; now rewrite IH.
Qed.

Lemma get_column_rows (cols : list string) (rs : list (list pyval))
      (col : string) (i : nat) :
  col_pos cols col = Some i ->
  get_column (mkDF cols rs) col = Ok (map (fun r => cell r i) rs).
Proof. intros H. unfold get_column. cbn [columns rows]. now rewrite H. Qed.

Lemma drop_duplicates_rows (subset : string) (df : DataFrame) (keys : list pyval) :
  get_column df subset = Ok keys ->
  forallb hashable keys = true ->
  drop_duplicates subset df
  = Ok (mkDF (columns df) (drop_masked (duplicated keys) (rows df))).
Proof.
  intros Hk Hh. unfold drop_duplicates. rewrite Hk. reflexivity.
Qed.

Lemma get_column_dropped (df : DataFrame) (col : string) (keys : list pyval)
      (mask : list bool) :
  get_column df col = Ok keys ->
  get_column (mkDF (columns df) (drop_masked mask (rows df))) col
  = Ok (drop_masked mask keys).
Proof.
  unfold get_column. cbn [columns rows].
  destruct (col_pos (columns df) col) as [i|]; [|discriminate].
  intros H. inversion H; subst. now rewrite drop_masked_map.
Qed.

Lemma get_column_length (df : DataFrame) (col : string) (keys : list pyval) :
  get_column df col = Ok keys -> List.length keys = List.length (rows df).
Proof.
  unfold get_column. destruct (col_pos (columns df) col); [|discriminate].
  intros H. inversion H. apply length_map.
Qed.

Lemma drop_masked_length_map {A B : Type} (f : A -> B) (mask : list bool) (l : list A) :
  List.length (drop_masked mask (map f l)) = List.length (drop_masked mask l).
Proof. now rewrite <- drop_masked_map, length_map. Qed.

Lemma drop_duplicates_twice (subset : string) (df df' : DataFrame) :
  drop_duplicates subset df = Ok df' -> drop_duplicates subset df' = Ok df'.
Proof.
  unfold drop_duplicates at 1.
  destruct (get_column df subset) as [keys|e] eqn:Hk; cbn [bind]; [|discriminate].
  intros H. inversion H; subst df'; clear H.
  unfold drop_duplicates.
  rewrite (get_column_dropped _ _ _ _ Hk). cbn [bind columns rows]. f_equal. f_equal.
  unfold duplicated. rewrite duplicated_from_survivors.
  pose proof (get_column_length _ _ _ Hk) as Hlen.
  unfold get_column in Hk.
  destruct (col_pos (columns df) subset) as [i|]; [|discriminate].
  inversion Hk; subst keys.
  rewrite drop_masked_length_map. apply drop_masked_all_false.
Qed.

(** C8.  De-duplicating by Title twice gives what de-duplicating once gives:
    the second pass returns the frame it is given.  The equation holds for
    every frame (when the first pass raises, so does the composition); for
    a frame with a Title column of hashable titles both passes return. *)
Theorem dedupe_idempotent (df : DataFrame) :
  (df' <- drop_duplicates "Title" df ;; drop_duplicates "Title" df')
  = drop_duplicates "Title" df
  /\ (forall titles,
        get_column df "Title" = Ok titles ->
        forallb hashable titles = true ->
        exists df', drop_duplicates "Title" df = Ok df'
                    /\ drop_duplicates "Title" df' = Ok df').
Proof.
  split.
  - destruct (drop_duplicates "Title" df) as [df'|e] eqn:H; cbn [bind].
    + exact (drop_duplicates_twice _ _ _ H).
    + reflexivity.
  - intros titles Hk Hh.
    eexists. split; [now apply (drop_duplicates_rows _ _ _ Hk)|].
    apply drop_duplicates_twice with (df := df).
    now apply (drop_duplicates_rows _ _ _ Hk).
Qed.

(** What [duplicated] marks, said by position: the key at [i] is marked
    exactly when an earlier key equals it. *)
Lemma duplicated_from_positions (keys seen pre : list pyval) :
  forallb hashable keys = true ->
  (forall k, existsb (key_eqb k) seen = existsb (key_eqb k) pre) ->
  duplicated_from seen keys
  = map (fun i => existsb (key_eqb (nth i keys PNaN)) (pre ++ firstn i keys))
        (seq 0 (List.length keys)).
Proof.
  revert seen pre; induction keys as [|k keys IH]; intros seen pre Hh Hinv;
    [reflexivity|].
  cbn [forallb] in Hh. apply andb_prop in Hh. destruct Hh as [Hhk Hh].
  cbn [duplicated_from List.length seq map nth firstn].
  rewrite app_nil_r, <- Hinv.
  assert (Htail : forall seen',
             (forall k', existsb (key_eqb k') seen'
                         = existsb (key_eqb k') (pre ++ [k])) ->
             duplicated_from seen' keys
             = map (fun i => existsb (key_eqb (nth i (k :: keys) PNaN))
                                     (pre ++ firstn i (k :: keys)))
                   (seq 1 (List.length keys))).
  { intros seen' Hinv'. rewrite (IH seen' (pre ++ [k]) Hh Hinv').
    rewrite <- seq_shift, map_map. apply map_ext. intros i.
    cbn [nth firstn]. now rewrite <- app_assoc. }
  destruct (existsb (key_eqb k) seen) eqn:Hk; f_equal; apply Htail; intros k'.
  - rewrite existsb_app, <- Hinv. cbn [existsb]. rewrite orb_false_r.
    destruct (key_eqb k' k) eqn:Hk'; [|now rewrite orb_false_r].
    rewrite orb_true_r. eapply existsb_key_eqb_trans; eassumption.
  - rewrite existsb_app, <- Hinv. cbn [existsb]. rewrite orb_false_r.
    apply orb_comm.
Qed.

Lemma drop_masked_positions {A : Type} (g : nat -> bool) (l : list A) (s : nat) :
  drop_masked (map g (seq s (List.length l))) l
  = map snd (filter (fun ix => negb (g (fst ix)))
                    (combine (seq s (List.length l)) l)).
Proof.
  revert s; induction l as [|x l IH]; intros s; [reflexivity|].
  cbn [List.length seq map drop_masked combine filter fst].
  destruct (g s); cbn [negb map snd]; now rewrite IH.
Qed.

Lemma drop_duplicated_keep_first {A : Type} (keys : list pyval) (l : list A) :
  forallb hashable keys = true ->
  List.length keys = List.length l ->
  drop_masked (duplicated keys) l = keep_first keys l.
Proof.
  intros Hh Hlen. unfold duplicated, keep_first, first_occurrence.
  rewrite (duplicated_from_positions keys [] [] Hh) by reflexivity.
  rewrite Hlen.
  exact (drop_masked_positions
           (fun i => existsb (key_eqb (nth i keys PNaN)) (firstn i keys)) l 0).
Qed.

(** C5.  On a frame whose titles can be hashed, de-duplication by Title
    returns the frame with the same columns whose rows are the rows at the
    positions of first occurrences: row [i] is removed exactly when the
    title of an earlier row equals its title, and the rows that stay keep
    their order.  Two [str] titles are equal when they are the same string.
    For the two hits titled "A" with 5 and 9 citations and limit 10, parsing
    and de-duplicating leaves the one row titled "A" with 5 citations. *)
Theorem dedupe_keeps_first_occurrence (df : DataFrame) (titles : list pyval) :
  get_column df "Title" = Ok titles ->
  forallb hashable titles = true ->
  exists df',
    drop_duplicates "Title" df = Ok df'
    /\ columns df' = columns df
    /\ rows df' = keep_first titles (rows df)
    /\ (forall s t, key_eqb (PStr s) (PStr t) = true <-> s = t)
    /\ (papers_df <-
          parse_scholarly_papers
            [PDict [("bib", PDict [("title", PStr "A"); ("pub_year", PInt 2020)]);
                    ("num_citations", PInt 5)];
             PDict [("bib", PDict [("title", PStr "A"); ("pub_year", PInt 2021)]);
                    ("num_citations", PInt 9)]]%string 10 ;;
        drop_duplicates "Title" papers_df)
       = Ok (mkDF expected_columns
                  [[PStr "A"; PStr ""; PInt 2020; PInt 5; PStr "N/A"]]).
Proof.
  intros Hk Hh.
  exists (mkDF (columns df) (drop_masked (duplicated titles) (rows df))).
  split; [now apply drop_duplicates_rows|].
  split; [reflexivity|].
  split.
  { cbn [rows]. apply drop_duplicated_keep_first; [exact Hh|].
    exact (get_column_length _ _ _ Hk). }
  split.
  { intros s t. cbn [key_eqb py_eqb]. apply String.eqb_eq. }
  vm_compute. reflexivity.
Qed.

Lemma dedupe_keeps_first_occurrence_witness :
  exists df',
    drop_duplicates "Title"
      (mkDF expected_columns
            [[PStr "A"; PStr ""; PInt 2020; PInt 5; PStr "N/A"];
             [PStr "B"; PStr ""; PInt 2019; PInt 1; PStr "N/A"];
             [PStr "A"; PStr ""; PInt 2021; PInt 9; PStr "N/A"]]) = Ok df'
    /\ rows df' = [[PStr "A"; PStr ""; PInt 2020; PInt 5; PStr "N/A"];
                   [PStr "B"; PStr ""; PInt 2019; PInt 1; PStr "N/A"]].
Proof.
  destruct (dedupe_keeps_first_occurrence
              (mkDF expected_columns
                    [[PStr "A"; PStr ""; PInt 2020; PInt 5; PStr "N/A"];
                     [PStr "B"; PStr ""; PInt 2019; PInt 1; PStr "N/A"];
                     [PStr "A"; PStr ""; PInt 2021; PInt 9; PStr "N/A"]])
              [PStr "A"; PStr "B"; PStr "A"])
    as (df' & Hdf & _ & Hrows & _); [reflexivity | reflexivity |].
  exists df'. split; [exact Hdf | exact Hrows].
Defined.

Lemma dedupe_idempotent_witness :
  exists df',
    drop_duplicates "Title"
      (mkDF expected_columns
            [[PStr "A"; PStr ""; PInt 2020; PInt 5; PStr "N/A"];
             [PStr "A"; PStr ""; PInt 2021; PInt 9; PStr "N/A"]]) = Ok df'
    /\ drop_duplicates "Title" df' = Ok df'.
Proof.
  exact (proj2 (dedupe_idempotent
                  (mkDF expected_columns
                        [[PStr "A"; PStr ""; PInt 2020; PInt 5; PStr "N/A"];
                         [PStr "A"; PStr ""; PInt 2021; PInt 9; PStr "N/A"]]))
               [PStr "A"; PStr "A"] eq_refl eq_refl).
Defined.

Lemma traverse_map {A B C : Type} (f : A -> result B) (g : B -> C) (h : A -> C)
      (l : list A) (ys : list B) :
  (forall x y, f x = Ok y -> g y = h x) ->
  traverse f l = Ok ys -> map g ys = map h l.
Proof.
  intros Hgh. revert ys; induction l as [|x l IH]; simpl; intros ys H.
  - now inversion H.
  - destruct (f x) as [y|e] eqn:Hx; simpl in H; [|discriminate].
    destruct (traverse f l) as [ys'|e]; simpl in H; [|discriminate].
    inversion H; subst. simpl. now rewrite (Hgh _ _ Hx), (IH ys').
Qed.

Lemma paper_record_title (h : pyval) (r : pydict) :
  paper_record h = Ok r -> cell (map snd r) 0 = hit_title h.
Proof.
  intros H. destruct (paper_record_shape _ _ H) as (d & authors & -> & _ & ->).
  unfold hit_title, or_default. cbn. reflexivity.
Qed.

(** The Title column of the parsed frame lists the titles the considered
    hits are filed under. *)
Lemma parse_titles (papers : list pyval) (top_n : Z) (df : DataFrame) :
  parse_scholarly_papers papers top_n = Ok df ->
  columns df = expected_columns
  /\ get_column df "Title" = Ok (map hit_title (py_slice_stop papers top_n)).
Proof.
  intros H.
  destruct (traverse paper_record (py_slice_stop papers top_n)) as [data|e] eqn:Ht.
  2:{ rewrite (parse_raises _ _ _ Ht) in H. discriminate. }
  rewrite (parse_of_records _ _ _ Ht) in H. inversion H; subst df; clear H.
  split; [reflexivity|].
  rewrite (get_column_rows _ _ _ 0%nat) by reflexivity.
  f_equal. rewrite map_map.
  apply (traverse_map paper_record _ hit_title _ _ paper_record_title Ht).
Qed.

Lemma titled_key_eqb (df : DataFrame) (s : string) :
  columns df = expected_columns ->
  titled df s = filter (fun row => key_eqb (cell row 0) (PStr s)) (rows df).
Proof.
  intros Hcols. unfold titled, row_cell. rewrite Hcols. cbn [col_pos expected_columns].
  change (String.eqb "Title" "Title") with true. cbv iota.
  apply filter_ext. intros row. unfold cell.
  destruct row as [|c row]; simpl; [reflexivity|]. now destruct c.
Qed.

(** How many surviving keys equal a given [str]: none when it was seen
    before, otherwise one if it occurs at all. *)
Lemma survivors_with_str_key (s : string) (keys seen : list pyval) :
  List.length
    (filter (fun k => key_eqb k (PStr s))
            (drop_masked (duplicated_from seen keys) keys))
  = if existsb (key_eqb (PStr s)) seen then 0%nat
    else if existsb (fun k => key_eqb k (PStr s)) keys then 1%nat else 0%nat.
Proof.
  revert seen; induction keys as [|k keys IH]; intros seen.
  - simpl. now destruct (existsb (key_eqb (PStr s)) seen).
  - cbn [duplicated_from].
    destruct (key_eqb k (PStr s)) eqn:Hks.
    + apply key_eqb_str in Hks. subst k.
      destruct (existsb (key_eqb (PStr s)) seen) eqn:Hseen;
        cbn [drop_masked filter existsb orb].
      * rewrite IH, Hseen. reflexivity.
      * rewrite (proj2 (key_eqb_str (PStr s) s) eq_refl).
        cbn [List.length orb]. rewrite IH. cbn [existsb].
        rewrite (proj2 (key_eqb_str (PStr s) s) eq_refl). reflexivity.
    + assert (Hsk : key_eqb (PStr s) k = false) by now rewrite key_eqb_sym.
      destruct (existsb (key_eqb k) seen) eqn:Hk;
        cbn [drop_masked filter existsb orb]; rewrite ?Hks; cbn [orb].
      * apply IH.
      * rewrite IH. cbn [existsb]. rewrite Hsk. reflexivity.
Qed.

Lemma filter_length_map {A B : Type} (f : A -> B) (p : B -> bool) (l : list A) :
  List.length (filter p (map f l)) = List.length (filter (fun x => p (f x)) l).
Proof.
  induction l as [|x l IH]; simpl; [reflexivity|].
  destruct (p (f x)); simpl; now rewrite IH.
Qed.

Lemma filter_length_le {A : Type} (p q : A -> bool) (l : list A) :
  (forall x, p x = true -> q x = true) ->
  (List.length (filter p l) <= List.length (filter q l))%nat.
Proof.
  intros Hpq. induction l as [|x l IH]; simpl; [lia|].
  destruct (p x) eqn:Hp.
  - rewrite (Hpq x Hp). simpl. lia.
  - destruct (q x); simpl; lia.
Qed.

Lemma filter_nonempty_existsb {A : Type} (p : A -> bool) (l : list A) :
  (1 <= List.length (filter p l))%nat -> existsb p l = true.
Proof.
  induction l as [|x l IH]; simpl; [lia|].
  destruct (p x); simpl; [reflexivity|exact IH].
Qed.

Lemma lacks_title_hit_title (h : pyval) :
  lacks_title h = true -> key_eqb (hit_title h) (PStr "N/A") = true.
Proof.
  destruct h as [| | | | | |d]; simpl; try discriminate.
  destruct (bib_entry d "title"); [discriminate|reflexivity].
Qed.

(** C10.  When two or more of the considered hits have no title (and the
    hits have the documented shape, with titles that can be hashed), each of
    them is filed under the marker "N/A" by [parse_scholarly_papers], so the
    parsed frame has at least that many rows titled "N/A"; after
    de-duplication by Title exactly one row titled "N/A" is left, whatever
    the other fields of those hits are. *)
Theorem untitled_hits_collapse (papers : list pyval) (top_n : Z) :
  0 <= top_n ->
  forallb well_formed_hit (firstn (Z.to_nat top_n) papers) = true ->
  forallb (fun h => hashable (hit_title h)) (firstn (Z.to_nat top_n) papers) = true ->
  (2 <= List.length (filter lacks_title (firstn (Z.to_nat top_n) papers)))%nat ->
  exists df df',
    parse_scholarly_papers papers top_n = Ok df
    /\ drop_duplicates "Title" df = Ok df'
    /\ (List.length (filter lacks_title (firstn (Z.to_nat top_n) papers))
        <= List.length (titled df "N/A"))%nat
    /\ List.length (titled df' "N/A") = 1%nat.
Proof.
  intros Hn Hwf Hhash Htwo.
  assert (Hok : is_ok (parse_scholarly_papers papers top_n) = true).
  { rewrite parse_is_ok, py_slice_stop_nonneg by assumption. exact Hwf. }
  apply is_ok_true in Hok. destruct Hok as (df & Hdf).
  destruct (parse_titles _ _ _ Hdf) as (Hcols & Hk).
  rewrite py_slice_stop_nonneg in Hk by assumption.
  set (hits := firstn (Z.to_nat top_n) papers) in *.
  assert (Hh : forallb hashable (map hit_title hits) = true).
  { rewrite forallb_forall in *. intros t Hin.
    apply in_map_iff in Hin. destruct Hin as (h & <- & Hin). now apply Hhash. }
  assert (Hrows : map (fun r => cell r 0) (rows df) = map hit_title hits).
  { unfold get_column in Hk. rewrite Hcols in Hk. cbn in Hk. now inversion Hk. }
  exists df, (mkDF (columns df) (drop_masked (duplicated (map hit_title hits)) (rows df))).
  split; [exact Hdf|].
  split; [now apply drop_duplicates_rows|].
  split.
  { rewrite (titled_key_eqb df "N/A" Hcols).
    rewrite <- (filter_length_map (fun r => cell r 0) (fun k => key_eqb k (PStr "N/A"))).
    rewrite Hrows, filter_length_map.
    apply filter_length_le. exact lacks_title_hit_title. }
  rewrite titled_key_eqb by exact Hcols. cbn [rows].
  rewrite <- (filter_length_map (fun r => cell r 0) (fun k => key_eqb k (PStr "N/A"))).
  rewrite drop_masked_map, Hrows. unfold duplicated.
  rewrite survivors_with_str_key. cbn [existsb].
  replace (existsb (fun k => key_eqb k (PStr "N/A")) (map hit_title hits)) with true;
    [reflexivity|].
  symmetry. apply existsb_exists.
  assert (He : existsb lacks_title hits = true)
    by (apply filter_nonempty_existsb; lia).
  apply existsb_exists in He. destruct He as (h & Hin & Hl).
  exists (hit_title h). split; [now apply in_map|].
  now apply lacks_title_hit_title.
Qed.

Lemma untitled_hits_collapse_witness :
  exists df df',
    parse_scholarly_papers
      [PDict [("num_citations", PInt 3)];
       PDict [("bib", PDict [("pub_year", PStr "1999")])];
       PDict [("bib", PDict [("title", PStr "A")])]]%string 10 = Ok df
    /\ drop_duplicates "Title" df = Ok df'
    /\ List.length (titled df' "N/A") = 1%nat.
Proof.
  destruct (untitled_hits_collapse
              [PDict [("num_citations", PInt 3)];
               PDict [("bib", PDict [("pub_year", PStr "1999")])];
               PDict [("bib", PDict [("title", PStr "A")])]]%string 10)
    as (df & df' & Hdf & Hdf' & _ & Hone);
    [lia | reflexivity | reflexivity | vm_compute; lia |].
  exists df, df'. repeat split; assumption.
Defined.

(** ** Indexers and [take] *)

Lemma map_nth_seq {A : Type} (l : list A) (d : A) :
  map (fun i => nth i l d) (seq 0 (List.length l)) = l.
Proof.
  induction l as [|x l IH]; [reflexivity|].
  cbn [List.length seq map nth]. f_equal.
  rewrite <- seq_shift, map_map. exact IH.
Qed.

Lemma take_in_range {A : Type} (indexer : list nat) (l : list A) (d : A) :
  Forall (fun i => (i < List.length l)%nat) indexer ->
  take indexer l = Ok (map (fun i => nth i l d) indexer).
Proof.
  induction 1 as [|i indexer Hi _ IH]; [reflexivity|].
  cbn [take map]. rewrite (nth_error_nth' l d Hi), IH. reflexivity.
Qed.

Lemma Permutation_seq_in_range (n : nat) (indexer : list nat) :
  Permutation (seq 0 n) indexer -> Forall (fun i => (i < n)%nat) indexer.
Proof.
  intros HP. rewrite Forall_forall. intros i Hin.
  apply (Permutation_in _ (Permutation_sym HP)) in Hin.
  apply in_seq in Hin. lia.
Qed.

Lemma take_permutation {A : Type} (indexer : list nat) (l : list A) (d : A) :
  Permutation (seq 0 (List.length l)) indexer ->
  take indexer l = Ok (map (fun i => nth i l d) indexer)
  /\ Permutation l (map (fun i => nth i l d) indexer).
Proof.
  intros HP. split.
  - apply take_in_range. now apply Permutation_seq_in_range.
  - rewrite <- (map_nth_seq l d) at 1. now apply Permutation_map.
Qed.

Lemma ascending_sorted (l : list Z) :
  ascending l = true -> StronglySorted Z.le l.
Proof.
  intros H. apply Sorted_StronglySorted; [exact Z.le_trans|].
  induction l as [|x l IH]; [constructor|].
  destruct l as [|y l].
  - repeat constructor.
  - cbn [ascending] in H. apply andb_prop in H. destruct H as [Hxy Hl].
    constructor; [now apply IH|]. constructor. now apply Z.leb_le.
Qed.

Lemma StronglySorted_snoc {A : Type} (R : A -> A -> Prop) (l : list A) (x : A) :
  StronglySorted R l -> Forall (fun y => R y x) l -> StronglySorted R (l ++ [x]).
Proof.
  induction 1 as [|y l Hl IH Hy]; intros Hx; cbn [app].
  - repeat constructor.
  - inversion Hx; subst. constructor; [now apply IH|].
    apply Forall_app. split; [assumption|]. now repeat constructor.
Qed.

Lemma descending_rev (l : list Z) :
  StronglySorted Z.le l -> descending (rev l).
Proof.
  unfold descending. induction 1 as [|x l Hl IH Hx]; cbn [rev]; [constructor|].
  apply StronglySorted_snoc; [exact IH|].
  rewrite Forall_forall in *. intros y Hy. apply in_rev in Hy.
  specialize (Hx y Hy). lia.
Qed.

(** What the contract gives: the indexer is a rearrangement of the
    positions, and the keys it lists ascend. *)
Lemma argsort_ok_sound (keys : list Z) (indexer : list nat) :
  argsort_ok keys indexer = true ->
  Permutation (seq 0 (List.length keys)) indexer
  /\ StronglySorted Z.le (map (fun i => nth i keys 0) indexer).
Proof.
  unfold argsort_ok. intros H.
  apply andb_prop in H. destruct H as [H Hasc].
  apply andb_prop in H. destruct H as [Hlen Hall].
  apply Nat.eqb_eq in Hlen. split; [|now apply ascending_sorted].
  apply NoDup_Permutation_bis.
  - apply seq_NoDup.
  - rewrite length_seq. lia.
  - intros i Hi. rewrite forallb_forall in Hall. specialize (Hall i Hi).
    apply existsb_exists in Hall. destruct Hall as (j & Hj & Hij).
    apply Nat.eqb_eq in Hij. now subst.
Qed.

(** ** The cast to int64 *)

Lemma int64_wrap_range (n : Z) : - 2 ^ 63 <= int64_wrap n < 2 ^ 63.
Proof.
  unfold int64_wrap.
  pose proof (Z.mod_pos_bound (n + 2 ^ 63) (2 ^ 64) eq_refl) as H.
  change (2 ^ 64) with (2 * 2 ^ 63) in *. lia.
Qed.

Lemma int64_wrap_small (n : Z) : - 2 ^ 63 <= n < 2 ^ 63 -> int64_wrap n = n.
Proof.
  intros H. unfold int64_wrap.
  rewrite Z.mod_small by (change (2 ^ 64) with (2 * 2 ^ 63); lia). lia.
Qed.

Lemma int64_wrap_exact (n : Z) : Z.abs n <= 2 ^ 53 -> int64_wrap n = n.
Proof.
  intros H. apply int64_wrap_small.
  assert (2 ^ 53 < 2 ^ 63) by reflexivity. lia.
Qed.

Lemma traverse_pointwise {A B : Type} (f : A -> result B) (g : A -> B) (l : list A) :
  Forall (fun x => f x = Ok (g x)) l -> traverse f l = Ok (map g l).
Proof.
  induction 1 as [|x l Hx _ IH]; [reflexivity|].
  cbn [traverse map]. rewrite Hx, IH. reflexivity.
Qed.

Lemma traverse_reindexed {A B : Type} (f : A -> result B) (l : list A) (ys : list B)
      (dA : A) (dB : B) (indexer : list nat) :
  traverse f l = Ok ys ->
  Forall (fun j => (j < List.length l)%nat) indexer ->
  traverse f (map (fun j => nth j l dA) indexer)
  = Ok (map (fun j => nth j ys dB) indexer).
Proof.
  intros Ht. induction 1 as [|j indexer Hj _ IH]; [reflexivity|].
  cbn [traverse map]. rewrite IH.
  destruct (traverse_nth f l ys Ht j (nth j l dA)) as (y & Hy & Hnth).
  { now apply nth_error_nth'. }
  rewrite Hy. cbn [bind]. now rewrite (nth_error_nth _ _ dB Hnth).
Qed.

Section SortFacts.

Variable to_number : string -> reading.
Variable argsort : list Z -> list nat.

(** The indexer of a descending sort, under the contract of [argsort]. *)
Lemma nargsort_descending_sound (keys : list Z) :
  argsort_ok (rev keys) (argsort (rev keys)) = true ->
  exists indexer,
    nargsort_descending argsort keys = Ok indexer
    /\ Permutation (seq 0 (List.length keys)) indexer
    /\ descending (map (fun i => nth i keys 0) indexer).
Proof.
  intros Hok. apply argsort_ok_sound in Hok. destruct Hok as [HP Hs].
  rewrite length_rev in HP.
  set (n := List.length keys) in *.
  set (idx := argsort (rev keys)) in *.
  assert (Hrange : Forall (fun i => (i < n)%nat) idx)
    by now apply Permutation_seq_in_range.
  assert (Hlen : List.length (rev (seq 0 n)) = n)
    by now rewrite length_rev, length_seq.
  assert (Htake : take idx (rev (seq 0 n))
                  = Ok (map (fun i => nth i (rev (seq 0 n)) 0%nat) idx)).
  { apply take_in_range. now rewrite Hlen. }
  exists (rev (map (fun i => nth i (rev (seq 0 n)) 0%nat) idx)).
  split.
  { unfold nargsort_descending. fold n. fold idx. rewrite Htake. reflexivity. }
  split.
  { rewrite <- Permutation_rev.
    transitivity (rev (seq 0 n)); [apply Permutation_rev|].
    rewrite <- (map_nth_seq (rev (seq 0 n)) 0%nat) at 1.
    rewrite Hlen. now apply Permutation_map. }
  rewrite map_rev. apply descending_rev.
  rewrite map_map.
  erewrite map_ext_in; [exact Hs|].
  intros i Hi. cbn beta.
  rewrite Forall_forall in Hrange. specialize (Hrange i Hi).
  rewrite rev_nth by (rewrite length_seq; exact Hrange).
  rewrite length_seq, seq_nth by lia. cbn [Nat.add].
  rewrite rev_nth by exact Hrange. reflexivity.
Qed.

Lemma cell_set_cell (row : list pyval) (i : nat) (v : pyval) :
  cell (set_cell row i v) i = if (i <? List.length row)%nat then v else cell row i.
Proof.
  unfold cell. revert i; induction row as [|x row IH]; intros i.
  - now destruct i.
  - destruct i as [|i]; [reflexivity|]. cbn [set_cell nth List.length].
    rewrite IH. reflexivity.
Qed.

(** An integer that came out of the cast is cast to itself. *)
Lemma coerce_int_stored (v : pyval) (k : Z) :
  coerce_int to_number v = Ok k -> coerce_int to_number (PInt k) = Ok k.
Proof.
  unfold coerce_int.
  destruct (fillna 0 (to_numeric to_number v)) as [|n|];
    cbn [astype_int fillna to_numeric]; try discriminate.
  intros H. inversion H; subst. f_equal.
  apply int64_wrap_small, int64_wrap_range.
Qed.

(** A cell that is missing, not a number, or a number up to 2^53 is
    coerced, and to the value it has. *)
Lemma coerce_int_representable (v : pyval) :
  representable (to_numeric to_number v) = true ->
  coerce_int to_number v = Ok (number_or_zero to_number v).
Proof.
  unfold coerce_int, number_or_zero.
  destruct (to_numeric to_number v) as [|n|];
    cbn [representable fillna astype_int]; try discriminate; intros H.
  - reflexivity.
  - apply Z.leb_le in H. now rewrite int64_wrap_exact.
Qed.

Lemma map_combine_map {A B C : Type} (f : A * B -> C) (g : A -> B) (l : list A) :
  map f (combine l (map g l)) = map (fun x => f (x, g x)) l.
Proof. induction l as [|x l IH]; simpl; [reflexivity|now rewrite IH]. Qed.

Lemma with_keys_map (i : nat) (f : pyval -> Z) (rs : list (list pyval)) :
  with_keys i (map f (map (fun r => cell r i) rs)) rs
  = map (fun r => set_cell r i (PInt (f (cell r i)))) rs.
Proof. unfold with_keys. rewrite !map_map. apply map_combine_map. Qed.

Lemma with_keys_length (i : nat) (keys : list Z) (rs : list (list pyval)) :
  List.length keys = List.length rs ->
  List.length (with_keys i keys rs) = List.length rs.
Proof.
  intros H. unfold with_keys. rewrite length_map, length_combine, length_map. lia.
Qed.

(** The keys read back from the rows they were stored in. *)
Lemma with_keys_read_back (i : nat) (rs : list (list pyval)) (keys : list Z) :
  traverse (coerce_int to_number) (map (fun r => cell r i) rs) = Ok keys ->
  traverse (coerce_int to_number) (map (fun r => cell r i) (with_keys i keys rs))
  = Ok keys.
Proof.
  unfold with_keys.
  revert keys; induction rs as [|r rs IH]; intros keys; cbn [map traverse].
  - intros H. inversion H. reflexivity.
  - destruct (coerce_int to_number (cell r i)) as [k|e] eqn:Hk; cbn [bind];
      [|discriminate].
    destruct (traverse (coerce_int to_number) (map (fun r => cell r i) rs))
      as [ks|e] eqn:Hks; cbn [bind]; [|discriminate].
    intros H. inversion H; subst keys; clear H.
    cbn [map combine fst snd traverse].
    rewrite cell_set_cell, (IH ks eq_refl).
    destruct (i <? List.length r)%nat.
    + now rewrite (coerce_int_stored _ _ Hk).
    + now rewrite Hk.
Qed.

(** One sorting branch, under the contract of [argsort] on its keys. *)
Lemma sort_by_column_sound (by_ : string) (df : DataFrame) (i : nat) (keys : list Z) :
  col_pos (columns df) by_ = Some i ->
  sort_keys to_number i df = Ok keys ->
  argsort_ok (rev keys) (argsort (rev keys)) = true ->
  exists indexer,
    Permutation (seq 0 (List.length (rows df))) indexer
    /\ sort_by_column to_number argsort by_ df
       = Ok (mkDF (columns df)
                  (map (fun j => nth j (with_keys i keys (rows df)) []) indexer))
    /\ sort_keys to_number i
         (mkDF (columns df)
               (map (fun j => nth j (with_keys i keys (rows df)) []) indexer))
       = Ok (map (fun j => nth j keys 0) indexer)
    /\ descending (map (fun j => nth j keys 0) indexer).
Proof.
  intros Hpos Hkeys Hok.
  destruct (nargsort_descending_sound _ Hok) as (indexer & Hn & HP & Hd).
  assert (Hlen : List.length keys = List.length (rows df)).
  { unfold sort_keys, cells in Hkeys.
    rewrite (traverse_length _ _ _ Hkeys). apply length_map. }
  rewrite Hlen in HP.
  exists indexer. split; [exact HP|].
  split; [|split; [|exact Hd]].
  - unfold sort_by_column.
    unfold get_column. rewrite Hpos. cbn [bind].
    unfold sort_keys, cells in Hkeys. rewrite Hkeys. cbn [bind].
    unfold set_column. rewrite Hpos. cbn [bind columns rows].
    rewrite Hn. cbn [bind].
    fold (with_keys i keys (rows df)).
    destruct (take_permutation indexer (with_keys i keys (rows df)) [])
      as [Htake _].
    { now rewrite with_keys_length. }
    rewrite Htake. reflexivity.
  - unfold sort_keys, cells in *. cbn [rows]. rewrite map_map.
    rewrite (map_ext _ (fun j => nth j (map (fun r => cell r i)
                                             (with_keys i keys (rows df)))
                                     (cell [] i))).
    2:{ intros j. symmetry. apply (map_nth (fun r => cell r i)). }
    apply traverse_reindexed.
    + now apply with_keys_read_back.
    + rewrite length_map, with_keys_length by exact Hlen.
      now apply Permutation_seq_in_range.
Qed.

End SortFacts.

(** ** The sort step *)

Lemma sort_step_branch (to_number : string -> reading) (argsort : list Z -> list nat)
      (sort_by : string) (df : DataFrame) :
  sort_step to_number argsort sort_by df
  = sort_by_column to_number argsort (sort_column sort_by) df.
Proof.
  unfold sort_step, sort_column.
  now destruct (String.eqb sort_by "Number of Citations").
Qed.

(** A sort column whose cells are all representable is coerced. *)
Lemma sort_keys_representable (to_number : string -> reading) (i : nat)
      (df : DataFrame) :
  forallb (fun v => representable (to_numeric to_number v)) (cells i df) = true ->
  sort_keys to_number i df = Ok (map (number_or_zero to_number) (cells i df)).
Proof.
  intros H. unfold sort_keys. apply traverse_pointwise.
  rewrite forallb_forall in H. apply Forall_forall. intros v Hv.
  apply coerce_int_representable. now apply H.
Qed.

(** C2 (amended).  Take a frame that has the column of the chosen sort
    option, in which every cell of that column is missing, not a number, or
    a finite number of magnitude at most 2^53, and an index sort that meets
    its contract on the keys of that frame.  Then the cast of the column to
    integers does not raise, and the sort step returns a frame with the
    same columns whose rows are a rearrangement of the given rows with the
    sort column replaced by its integer keys, in descending order of the
    keys.  The key of a cell is the number it stands for, and 0 for a cell
    that is not a number: the coercion sends [None], NaN and every [str]
    that is not a number to 0 and keeps the numbers of that magnitude.
    Nothing is promised about the order of rows with equal keys. *)
Theorem sort_step_descending_rearrangement
        (to_number : string -> reading) (argsort : list Z -> list nat)
        (sort_by : string) (df : DataFrame) (i : nat) (keys : list Z) :
  col_pos (columns df) (sort_column sort_by) = Some i ->
  forallb (fun v => representable (to_numeric to_number v)) (cells i df) = true ->
  sort_keys to_number i df = Ok keys ->
  argsort_ok (rev keys) (argsort (rev keys)) = true ->
  exists df' keys',
    sort_step to_number argsort sort_by df = Ok df'
    /\ columns df' = columns df
    /\ keys = map (number_or_zero to_number) (cells i df)
    /\ Permutation (with_keys i keys (rows df)) (rows df')
    /\ sort_keys to_number i df' = Ok keys'
    /\ Permutation keys keys'
    /\ descending keys'
    /\ coerce_int to_number PNone = Ok 0
    /\ coerce_int to_number PNaN = Ok 0
    /\ (forall s, to_number s = NotNumber -> coerce_int to_number (PStr s) = Ok 0)
    /\ (forall s n, to_number s = Number n -> Z.abs n <= 2 ^ 53 ->
                    coerce_int to_number (PStr s) = Ok n)
    /\ (forall n, Z.abs n <= 2 ^ 53 -> coerce_int to_number (PInt n) = Ok n).
Proof.
  intros Hpos Hrep Hkeys Hok.
  destruct (sort_by_column_sound to_number argsort _ df i keys Hpos Hkeys Hok)
    as (indexer & HP & Hsort & Hread & Hdesc).
  assert (Hlen : List.length keys = List.length (rows df)).
  { unfold sort_keys, cells in Hkeys.
    rewrite (traverse_length _ _ _ Hkeys). apply length_map. }
  eexists. exists (map (fun j => nth j keys 0) indexer).
  split; [rewrite sort_step_branch; exact Hsort|].
  split; [reflexivity|].
  split.
  { rewrite (sort_keys_representable _ _ _ Hrep) in Hkeys. now inversion Hkeys. }
  split.
  { cbn [rows]. apply take_permutation. now rewrite with_keys_length. }
  split; [exact Hread|].
  split.
  { apply take_permutation. now rewrite Hlen. }
  split; [exact Hdesc|].
  repeat split.
  - intros s Hs. unfold coerce_int. cbn [to_numeric]. now rewrite Hs.
  - intros s n Hs Hn. unfold coerce_int. cbn [to_numeric]. rewrite Hs.
    cbn [fillna astype_int]. now rewrite int64_wrap_exact.
  - intros n Hn. unfold coerce_int. cbn [to_numeric fillna astype_int].
    now rewrite int64_wrap_exact.
Qed.

Lemma sort_step_descending_rearrangement_witness :
  exists df' keys',
    sort_step plain_integer (answering [2; 3; 0; 1]%nat) "Publication Year"
      (mkDF expected_columns
            [[PStr "A"; PStr ""; PStr "2019"; PInt 5; PStr "N/A"];
             [PStr "B"; PStr ""; PStr "N/A"; PInt 9; PStr "N/A"];
             [PStr "C"; PStr ""; PInt 2021; PInt 1; PStr "N/A"];
             [PStr "D"; PStr ""; PStr "2020"; PInt 0; PStr "N/A"]]) = Ok df'
    /\ sort_keys plain_integer 2 df' = Ok keys'
    /\ descending keys'.
Proof.
  destruct (sort_step_descending_rearrangement
              plain_integer (answering [2; 3; 0; 1]%nat) "Publication Year"
              (mkDF expected_columns
                    [[PStr "A"; PStr ""; PStr "2019"; PInt 5; PStr "N/A"];
                     [PStr "B"; PStr ""; PStr "N/A"; PInt 9; PStr "N/A"];
                     [PStr "C"; PStr ""; PInt 2021; PInt 1; PStr "N/A"];
                     [PStr "D"; PStr ""; PStr "2020"; PInt 0; PStr "N/A"]])
              2%nat [2019; 0; 2021; 2020])
    as (df' & keys' & Hdf & _ & _ & _ & Hkeys & _ & Hdesc & _);
    [reflexivity | reflexivity | reflexivity | reflexivity |].
  exists df', keys'. split; [exact Hdf|]. split; [exact Hkeys | exact Hdesc].
Defined.

(** C2 (counterexample).  Four hits titled "A", "B", "C" and "D" with 0, 0,
    1 and 1 citations, parsed with limit 10 and de-duplicated, have the sort
    keys 0, 0, 1, 1.  The descending sort hands the reversed keys 1, 1, 0, 0
    to the index sort.  The answer 3, 2, 1, 0 lists them in ascending
    order, as the contract asks; it is the answer of a sort that exchanges
    the two ends of the array where they are out of order (positions 0 and
    3, then 1 and 2) and leaves alone what is in order, as the vectorised
    index sort of numpy does on four keys.  With it the sort step by Number
    of Citations returns the rows titled "D", "C", "B", "A": the keys
    descend, and both pairs of rows with equal keys have changed places,
    where keeping them in place would give "C", "D", "A", "B".

    Two further values show what the coercion does outside plain numbers:
    a hit whose year is the string "inf" makes the cast raise, so that an
    error is shown and no table, and a count of 2^63 citations is cast to
    -2^63. *)
Lemma sort_step_reorders_ties :
  exists df df',
    (papers_df <- parse_scholarly_papers tied_hits 10 ;;
     drop_duplicates "Title" papers_df) = Ok df
    /\ cells 0 df = [PStr "A"; PStr "B"; PStr "C"; PStr "D"]
    /\ sort_keys plain_integer 3 df = Ok [0; 0; 1; 1]
    /\ argsort_ok (rev [0; 0; 1; 1]) [3; 2; 1; 0]%nat = true
    /\ nargsort_descending (answering [3; 2; 1; 0]%nat) [0; 0; 1; 1]
       = Ok [3; 2; 1; 0]%nat
    /\ ties_in_order [0; 0; 1; 1] [3; 2; 1; 0]%nat = false
    /\ ties_in_order [0; 0; 1; 1] [2; 3; 0; 1]%nat = true
    /\ sort_step plain_integer (answering [3; 2; 1; 0]%nat) "Number of Citations" df
       = Ok df'
    /\ cells 0 df' = [PStr "D"; PStr "C"; PStr "B"; PStr "A"]
    /\ sort_keys plain_integer 3 df' = Ok [1; 1; 0; 0]
    /\ main plain_integer (answering [0]%nat) repr_unused
            [PDict [("bib", PDict [("title", PStr "E"); ("pub_year", PStr "inf")])]]%string
            10 "Publication Year"
       = ErrorShown ValueError
    /\ coerce_int plain_integer (PInt (2 ^ 63)) = Ok (- 2 ^ 63).
Proof.
  eexists. eexists.
  split; [vm_compute; reflexivity|].
  repeat (split; [vm_compute; reflexivity|]).
  vm_compute; reflexivity.
Qed.

(** ** The second scenario: a year that is not a number *)

Lemma argsort_ok_singleton (k : Z) (indexer : list nat) :
  argsort_ok [k] indexer = true -> indexer = [0%nat].
Proof.
  unfold argsort_ok. intros H.
  apply andb_prop in H. destruct H as [H _].
  apply andb_prop in H. destruct H as [Hlen Hall].
  destruct indexer as [|a [|b rest]]; try discriminate.
  cbn in Hall. destruct a; [reflexivity|discriminate].
Qed.

(** C3 (counterexample).  For the single hit titled "B" whose year is the
    string "N/A", sorted by Publication Year, the row that is shown has the
    integer 0 in its Publication Year cell, not the string "N/A" that the
    parsed frame held: the sort step writes the coerced column back. *)
Lemma sort_overwrites_year_display :
  parse_scholarly_papers [hit_B] 10
  = Ok (mkDF expected_columns [[PStr "B"; PStr ""; PStr "N/A"; PInt 0; PStr "N/A"]])
  /\ main plain_integer Npy.argsort repr_unused [hit_B] 10 "Publication Year"
     = Table (mkDF expected_columns
                   [[PStr "B"; PStr ""; PInt 0; PInt 0; PStr "N/A"]])
  /\ row_cell (mkDF expected_columns
                    [[PStr "B"; PStr ""; PInt 0; PInt 0; PStr "N/A"]])
              [PStr "B"; PStr ""; PInt 0; PInt 0; PStr "N/A"] "Publication Year"
     = Some (PInt 0).
Proof. repeat split; vm_compute; reflexivity. Qed.

(** C3 (amended).  For the single hit titled "B" whose year is the string
    "N/A", sorted by Publication Year: whenever pandas does not read "N/A"
    as a number and the index sort meets its contract on the one key, the
    coerced sort value is 0, the record is still present in the table that
    is shown, and its Publication Year cell reads 0 there. *)
Theorem missing_year_sorts_and_shows_as_zero
        (to_number : string -> reading) (argsort : list Z -> list nat)
        (repr : pyval -> string) :
  to_number "N/A"%string = NotNumber ->
  argsort_ok [0] (argsort [0]) = true ->
  coerce_int to_number (PStr "N/A") = Ok 0
  /\ main to_number argsort repr [hit_B] 10 "Publication Year"
     = Table (mkDF expected_columns
                   [[PStr "B"; PStr ""; PInt 0; PInt 0; PStr "N/A"]]).
Proof.
  intros Hna Hok. apply argsort_ok_singleton in Hok.
  assert (Hc : coerce_int to_number (PStr "N/A") = Ok 0).
  { unfold coerce_int. cbn [to_numeric]. now rewrite Hna. }
  split; [exact Hc|].
  unfold main.
  change (fetch [hit_B] 10) with [hit_B].
  unfold rank.
  change (parse_scholarly_papers [hit_B] 10)
    with (Ok (mkDF expected_columns
                   [[PStr "B"; PStr ""; PStr "N/A"; PInt 0; PStr "N/A"]])).
  cbn [bind].
  change (drop_duplicates "Title"
            (mkDF expected_columns
                  [[PStr "B"; PStr ""; PStr "N/A"; PInt 0; PStr "N/A"]]))
    with (Ok (mkDF expected_columns
                   [[PStr "B"; PStr ""; PStr "N/A"; PInt 0; PStr "N/A"]])).
  cbn [bind].
  assert (Hs : sort_step to_number argsort "Publication Year"
                 (mkDF expected_columns
                       [[PStr "B"; PStr ""; PStr "N/A"; PInt 0; PStr "N/A"]])
               = Ok (mkDF expected_columns
                          [[PStr "B"; PStr ""; PInt 0; PInt 0; PStr "N/A"]])).
  { rewrite sort_step_branch.
    change (sort_column "Publication Year") with "Publication Year"%string.
    unfold sort_by_column.
    change (get_column
              (mkDF expected_columns
                    [[PStr "B"; PStr ""; PStr "N/A"; PInt 0; PStr "N/A"]])
              "Publication Year")
      with (Ok [PStr "N/A"]).
    cbn [bind traverse]. rewrite Hc. cbn [bind map].
    change (set_column
              (mkDF expected_columns
                    [[PStr "B"; PStr ""; PStr "N/A"; PInt 0; PStr "N/A"]])
              "Publication Year" [PInt 0])
      with (Ok (mkDF expected_columns
                     [[PStr "B"; PStr ""; PInt 0; PInt 0; PStr "N/A"]])).
    cbn [bind].
    unfold nargsort_descending. cbn [rev app List.length seq].
    rewrite Hok. reflexivity. }
  rewrite Hs. cbn [bind]. reflexivity.
Qed.

Lemma missing_year_sorts_and_shows_as_zero_witness :
  main plain_integer Npy.argsort repr_unused [hit_B] 10 "Publication Year"
  = Table (mkDF expected_columns
                [[PStr "B"; PStr ""; PInt 0; PInt 0; PStr "N/A"]]).
Proof.
  exact (proj2 (missing_year_sorts_and_shows_as_zero
                  plain_integer Npy.argsort repr_unused eq_refl eq_refl)).
Defined.

(** ** Link rendering *)

(** C7.  [make_clickable] returns the literal "N/A" exactly when the url is
    not present (it is falsy: [None], the empty string) or is the marker
    "N/A"; in every other case it returns the markup of a hyperlink whose
    target is the url, which opens in a new context ([_blank]) and whose
    visible text is "View Paper".  A [str] url is used as it is.  For
    "http://x" the result is that element with target "http://x"; for an
    absent url ([None], or the marker that [parse_scholarly_papers] files an
    absent url under) it is "N/A". *)
Theorem make_clickable_renders_link (repr : pyval -> string) (link : pyval) :
  (make_clickable repr link = "N/A"%string
   <-> (py_truthy link = false \/ link = PStr "N/A"))
  /\ (py_truthy link = true -> link <> PStr "N/A" ->
      make_clickable repr link
      = html_of (mkLink (py_format repr link) "_blank" "View Paper"))
  /\ (forall url, py_format repr (PStr url) = url)
  /\ make_clickable repr (PStr "http://x")
     = html_of (mkLink "http://x" "_blank" "View Paper")
  /\ make_clickable repr PNone = "N/A"%string
  /\ make_clickable repr (PStr "N/A") = "N/A"%string
  /\ make_clickable repr (PStr "") = "N/A"%string.
Proof.
  assert (Hne : forall v, py_ne_str v "N/A" = false <-> v = PStr "N/A").
  { intros v. destruct v; simpl; split; intros H; try discriminate.
    - apply negb_false_iff, String.eqb_eq in H. now subst.
    - inversion H. reflexivity. }
  split.
  { unfold make_clickable.
    destruct (py_truthy link) eqn:Ht; cbn [andb].
    - destruct (py_ne_str link "N/A") eqn:Hn.
      + split; [discriminate|].
        intros [H|H]; [discriminate|].
        apply Hne in H. congruence.
      + split; [|reflexivity]. intros _. right. now apply Hne.
    - split; [|reflexivity]. intros _. now left. }
  split.
  { intros Ht Hn. unfold make_clickable. rewrite Ht. cbn [andb].
    destruct (py_ne_str link "N/A") eqn:Hp; [reflexivity|].
    apply Hne in Hp. contradiction. }
  repeat split.
Qed.

(** ** The fetch loop and the order of truncation and de-duplication *)

Lemma fetch_loop_firstn (n : nat) (search_results papers : list pyval) :
  fetch_loop n search_results papers = papers ++ firstn n search_results.
Proof.
  revert search_results papers; induction n as [|n IH];
    intros search_results papers; cbn [fetch_loop firstn].
  - now rewrite app_nil_r.
  - destruct search_results as [|p rest]; [now rewrite app_nil_r|].
    rewrite IH, <- app_assoc. reflexivity.
Qed.

Lemma fetch_firstn (search_results : list pyval) (top_n : Z) :
  fetch search_results top_n = firstn (Z.to_nat (top_n * 2)) search_results.
Proof. unfold fetch. now rewrite fetch_loop_firstn. Qed.

Lemma slice_of_fetch (search_results : list pyval) (top_n : Z) :
  py_slice_stop (fetch search_results top_n) top_n
  = firstn (Z.to_nat top_n) search_results.
Proof.
  rewrite fetch_firstn. unfold py_slice_stop.
  destruct (Z.ltb_spec top_n 0) as [Hneg|Hpos].
  - replace (Z.to_nat (top_n * 2)) with 0%nat by lia.
    replace (Z.to_nat top_n) with 0%nat by lia.
    cbn [firstn]. now rewrite firstn_nil.
  - rewrite firstn_firstn. f_equal. lia.
Qed.

Lemma fetch_empty (search_results : list pyval) (top_n : Z) :
  fetch search_results top_n = [] <-> firstn (Z.to_nat top_n) search_results = [].
Proof.
  rewrite fetch_firstn.
  destruct search_results as [|p rest]; [now rewrite !firstn_nil|].
  destruct (Z.to_nat top_n) as [|n] eqn:Hn.
  - replace (Z.to_nat (top_n * 2)) with 0%nat by lia. reflexivity.
  - replace (Z.to_nat (top_n * 2)) with (S (S (2 * n))) by lia.
    cbn [firstn]. split; discriminate.
Qed.

Lemma parse_depends_on_slice (papers papers' : list pyval) (top_n : Z) :
  py_slice_stop papers top_n = py_slice_stop papers' top_n ->
  parse_scholarly_papers papers top_n = parse_scholarly_papers papers' top_n.
Proof. intros H. unfold parse_scholarly_papers. now rewrite H. Qed.

(** C9.  The limit is applied before de-duplication.  Of the up to
    [2 * top_n] hits that are fetched, [parse_scholarly_papers] considers
    the first [top_n] only, and what the button shows is decided by those:
    two result streams that agree on their first [top_n] hits give the same
    outcome, whatever the hits after them are.  So the extra hits cannot
    make up for rows lost to de-duplication: for the twenty results of
    [crowded_results] and limit 10, the fetched hits carry 19 distinct
    titles, and the table that is shown has 9 rows. *)
Theorem truncation_precedes_dedupe :
  (forall search_results top_n,
      py_slice_stop (fetch search_results top_n) top_n
      = firstn (Z.to_nat top_n) search_results)
  /\ (forall to_number argsort repr sort_by search_results search_results' top_n,
        firstn (Z.to_nat top_n) search_results
        = firstn (Z.to_nat top_n) search_results' ->
        main to_number argsort repr search_results top_n sort_by
        = main to_number argsort repr search_results' top_n sort_by)
  /\ (exists df,
        main plain_integer Npy.argsort repr_unused crowded_results 10
                 "Number of Citations" = Table df
        /\ List.length (fetch crowded_results 10) = 20%nat
        /\ List.length
             (keep_first (map hit_title (fetch crowded_results 10))
                         (fetch crowded_results 10)) = 19%nat
        /\ List.length (rows df) = 9%nat).
Proof.
  split; [exact slice_of_fetch|].
  split.
  - intros to_number argsort repr sort_by sr sr' top_n Heq.
    assert (Hparse : parse_scholarly_papers (fetch sr top_n) top_n
                     = parse_scholarly_papers (fetch sr' top_n) top_n).
    { apply parse_depends_on_slice. now rewrite !slice_of_fetch. }
    pose proof (fetch_empty sr top_n) as He.
    pose proof (fetch_empty sr' top_n) as He'.
    unfold main, rank. rewrite Hparse.
    destruct (fetch sr top_n) as [|p ps], (fetch sr' top_n) as [|p' ps'];
      try reflexivity.
    + exfalso. rewrite <- Heq in He'.
      assert (H : p' :: ps' = []) by (apply He', He; reflexivity).
      discriminate.
    + exfalso. rewrite Heq in He.
      assert (H : p :: ps = []) by (apply He, He'; reflexivity).
      discriminate.
  - eexists. split; [vm_compute; reflexivity|].
    repeat split; vm_compute; reflexivity.
Qed.

(* ===================================================================== *)
(** * Further properties of the code *)
(* ===================================================================== *)

(** ** The fetch loop *)

Lemma fetch_next_ok (n : nat) (hits papers : list pyval) :
  fetch_next n (map Ok hits) papers = Ok (papers ++ firstn n hits).
Proof.
  revert hits papers; induction n as [|n IH]; intros hits papers;
    cbn [fetch_next firstn].
  - now rewrite app_nil_r.
  - destruct hits as [|h hits]; cbn [map]; [now rewrite app_nil_r|].
    rewrite IH, <- app_assoc. reflexivity.
Qed.

Lemma fetch_next_raise (n : nat) (before : list pyval) (e : exn)
      (rest : list (result pyval)) (papers : list pyval) :
  fetch_next n (map Ok before ++ Raise e :: rest) papers
  = if (List.length before <? n)%nat then Raise e
    else Ok (papers ++ firstn n before).
Proof.
  revert before papers; induction n as [|n IH]; intros before papers.
  - cbn [fetch_next firstn]. rewrite app_nil_r.
    now destruct (List.length before <? 0)%nat eqn:H; [apply Nat.ltb_lt in H; lia|].
  - destruct before as [|h before]; cbn [map app fetch_next List.length firstn].
    + reflexivity.
    + rewrite IH, <- app_assoc.
      change (S (List.length before) <? S n)%nat with (List.length before <? n)%nat.
      reflexivity.
Qed.

(** X1.  The fetch loop pulls the search results in order and stops after
    [2 * top_n] of them or at the end of the results, whichever comes
    first; the rest is never pulled.  For a limit that is not positive it
    pulls nothing. *)
Theorem fetch_is_bounded_prefix (search_results : list pyval) (top_n : Z) :
  fetch search_results top_n = firstn (Z.to_nat (2 * top_n)) search_results
  /\ List.length (fetch search_results top_n)
     = Nat.min (Z.to_nat (2 * top_n)) (List.length search_results)
  /\ Z.of_nat (List.length (fetch search_results top_n)) <= Z.max 0 (2 * top_n)
  /\ search_results
     = fetch search_results top_n ++ skipn (Z.to_nat (2 * top_n)) search_results
  /\ (top_n <= 0 -> fetch search_results top_n = []).
Proof.
  assert (H : fetch search_results top_n
              = firstn (Z.to_nat (2 * top_n)) search_results).
  { rewrite fetch_firstn. f_equal. lia. }
  rewrite H. split; [reflexivity|].
  split; [apply length_firstn|].
  split; [rewrite length_firstn; lia|].
  split; [symmetry; apply firstn_skipn|].
  intros Hn. replace (Z.to_nat (2 * top_n)) with 0%nat by lia. reflexivity.
Qed.

(** X2.  When the search client raises, nothing is shown but the error:
    this holds when [search_pubs] itself raises, and when [next] raises
    while one of the first [2 * top_n] hits is pulled, also after [top_n]
    hits or more were already pulled.  A [next] that would raise later is
    never called.  When nothing raises, the press of the button does what
    [main] does on the list of the hits. *)
Theorem button_pressed_on_a_raising_client
        (to_number : string -> reading) (argsort : list Z -> list nat)
        (repr : pyval -> string)
        (selected_technology : pyval) (top_n : Z) (sort_by : string) :
  (forall e,
      button_pressed to_number argsort repr (fun _ => Raise e)
                     selected_technology top_n sort_by = ErrorShown e)
  /\ (forall before e rest,
        (List.length before < Z.to_nat (2 * top_n))%nat ->
        button_pressed to_number argsort repr
                       (fun _ => Ok (map Ok before ++ Raise e :: rest))
                       selected_technology top_n sort_by = ErrorShown e)
  /\ (forall before e rest,
        (Z.to_nat (2 * top_n) <= List.length before)%nat ->
        button_pressed to_number argsort repr
                       (fun _ => Ok (map Ok before ++ Raise e :: rest))
                       selected_technology top_n sort_by
        = main to_number argsort repr before top_n sort_by)
  /\ (forall hits,
        button_pressed to_number argsort repr (fun _ => Ok (map Ok hits))
                       selected_technology top_n sort_by
        = main to_number argsort repr hits top_n sort_by).
Proof.
  assert (Hn : Z.to_nat (top_n * 2) = Z.to_nat (2 * top_n)) by (f_equal; lia).
  split; [reflexivity|].
  split.
  { intros before e rest Hlt. unfold button_pressed. cbn [bind].
    rewrite fetch_next_raise, Hn.
    now apply Nat.ltb_lt in Hlt; rewrite Hlt. }
  split.
  { intros before e rest Hle. unfold button_pressed, main. cbn [bind].
    rewrite fetch_next_raise, Hn, fetch_firstn, Hn.
    assert (Hlt : (List.length before <? Z.to_nat (2 * top_n))%nat = false)
      by (apply Nat.ltb_ge; exact Hle).
    rewrite Hlt. cbn [app].
    now destruct (firstn (Z.to_nat (2 * top_n)) before). }
  intros hits. unfold button_pressed, main. cbn [bind].
  rewrite fetch_next_ok, fetch_firstn. cbn [app].
  now destruct (firstn (Z.to_nat (top_n * 2)) hits).
Qed.

(** ** What [main] ends with *)

Lemma rank_raises_with_parse (to_number : string -> reading)
      (argsort : list Z -> list nat) (repr : pyval -> string)
      (sort_by : string) (papers : list pyval) (top_n : Z) (e : exn) :
  parse_scholarly_papers papers top_n = Raise e ->
  rank to_number argsort repr sort_by papers top_n = Raise e.
Proof. intros H. unfold rank. now rewrite H. Qed.

Lemma main_of_rank (to_number : string -> reading)
      (argsort : list Z -> list nat) (repr : pyval -> string)
      (search_results : list pyval) (top_n : Z) (sort_by : string) :
  0 < top_n -> (0 < List.length search_results)%nat ->
  main to_number argsort repr search_results top_n sort_by
  = match rank to_number argsort repr sort_by search_results top_n with
    | Ok papers_df => Table papers_df
    | Raise e => ErrorShown e
    end.
Proof.
  intros Hn Hs. unfold main.
  assert (Hrank : rank to_number argsort repr sort_by (fetch search_results top_n) top_n
                  = rank to_number argsort repr sort_by search_results top_n).
  { unfold rank. f_equal. apply parse_depends_on_slice.
    now rewrite slice_of_fetch, py_slice_stop_nonneg by lia. }
  rewrite Hrank.
  destruct (fetch search_results top_n) as [|p ps] eqn:Hf; [|reflexivity].
  exfalso. apply fetch_empty in Hf.
  destruct search_results as [|h hs]; [cbn in Hs; lia|].
  destruct (Z.to_nat top_n) eqn:Ht; [lia|discriminate].
Qed.

(** X3.  "No papers found" is the outcome of [main] exactly when nothing was
    fetched: the search results are empty, or the limit is not positive.
    In that case the hits are never parsed. *)
Theorem no_papers_found_iff_nothing_fetched
        (to_number : string -> reading) (argsort : list Z -> list nat)
        (repr : pyval -> string)
        (search_results : list pyval) (top_n : Z) (sort_by : string) :
  main to_number argsort repr search_results top_n sort_by = NoPapersFound
  <-> (search_results = [] \/ top_n <= 0).
Proof.
  split.
  - intros H.
    destruct search_results as [|h hs]; [now left|]. right.
    destruct (Z.leb_spec top_n 0) as [Hle|Hgt]; [exact Hle|].
    rewrite main_of_rank in H by (cbn; lia).
    destruct (rank _ _ _ _ _ _); discriminate.
  - intros H. unfold main.
    replace (fetch search_results top_n) with (@nil pyval); [reflexivity|].
    symmetry. apply fetch_empty.
    destruct H as [-> | Hle]; [apply firstn_nil|].
    replace (Z.to_nat top_n) with 0%nat by lia. reflexivity.
Qed.

Lemma traverse_raises {A B : Type} (f : A -> result B) (l : list A) (e : exn) :
  traverse f l = Raise e -> exists x, In x l /\ f x = Raise e.
Proof.
  induction l as [|a l IH]; simpl; [discriminate|].
  destruct (f a) as [y|e'] eqn:Ha; simpl.
  - destruct (traverse f l) as [ys|e'']; simpl; [discriminate|].
    intros H. inversion H; subst.
    destruct (IH eq_refl) as (x & Hin & Hx). eauto.
  - intros H. inversion H; subst. eauto.
Qed.

Lemma py_join_raises (sep : string) (v : pyval) (e : exn) :
  py_join sep v = Raise e -> e = TypeError.
Proof.
  destruct v; simpl; try (intros H; now inversion H); try discriminate.
  destruct (all_str items); [discriminate|]. intros H; now inversion H.
Qed.

Lemma paper_record_raises (h : pyval) (e : exn) :
  paper_record h = Raise e -> e = AttributeError \/ e = TypeError.
Proof.
  destruct h as [| | | | |items|d];
    try (intros H; left; now inversion H).
  unfold paper_record. cbn [py_get bind].
  destruct (dict_get d "bib") as [b|].
  - destruct b as [| | | | |items|b];
      try (intros H; left; now inversion H).
    cbn [py_get bind].
    destruct (py_join ", " _) as [authors|e'] eqn:Hj; cbn [bind]; [discriminate|].
    intros H. inversion H; subst. right. eapply py_join_raises; eauto.
  - cbn [py_get bind dict_get].
    destruct (py_join ", " _) as [authors|e'] eqn:Hj; cbn [bind]; [discriminate|].
    intros H. inversion H; subst. right. eapply py_join_raises; eauto.
Qed.

(** X4.  When something was fetched, a considered hit that does not have the
    expected shape (it is not a mapping, its ['bib'] entry is not a mapping,
    or its authors cannot be joined) makes [main] show an error and no
    table, whatever the other hits are: an [AttributeError] or a
    [TypeError] raised by the parsing. *)
Theorem main_shows_error_on_bad_hit
        (to_number : string -> reading) (argsort : list Z -> list nat)
        (repr : pyval -> string)
        (search_results : list pyval) (top_n : Z) (sort_by : string) :
  0 < top_n -> (0 < List.length search_results)%nat ->
  forallb well_formed_hit (firstn (Z.to_nat top_n) search_results) = false ->
  exists e, (e = AttributeError \/ e = TypeError)
            /\ parse_scholarly_papers search_results top_n = Raise e
            /\ main to_number argsort repr search_results top_n sort_by
               = ErrorShown e.
Proof.
  intros Hn Hs Hwf. rewrite main_of_rank by assumption.
  assert (Hslice : py_slice_stop search_results top_n
                   = firstn (Z.to_nat top_n) search_results)
    by (apply py_slice_stop_nonneg; lia).
  destruct (traverse paper_record (py_slice_stop search_results top_n))
    as [data|e] eqn:Ht.
  - pose proof (parse_is_ok search_results top_n) as Hok.
    rewrite (parse_of_records _ _ _ Ht), Hslice, Hwf in Hok. discriminate.
  - exists e. split; [|split].
    + destruct (traverse_raises _ _ _ Ht) as (h & _ & Hh).
      now apply paper_record_raises in Hh.
    + exact (parse_raises _ _ _ Ht).
    + now rewrite (rank_raises_with_parse _ _ _ _ _ _ _ (parse_raises _ _ _ Ht)).
Qed.

Lemma main_shows_error_on_bad_hit_witness :
  main plain_integer Npy.argsort repr_unused
       [titled_hit "A"; PDict [("bib", PNone)]]%string 10 "Publication Year"
  = ErrorShown AttributeError
  /\ main plain_integer Npy.argsort repr_unused
          [titled_hit "A"; PDict [("bib", PDict [("author", PInt 3)])]]%string
          10 "Number of Citations"
     = ErrorShown TypeError.
Proof.
  split.
  - destruct (main_shows_error_on_bad_hit
                plain_integer Npy.argsort repr_unused
                [titled_hit "A"; PDict [("bib", PNone)]]%string 10
                "Publication Year" ltac:(lia) ltac:(cbn; lia) eq_refl)
      as (e & _ & _ & He).
    rewrite He. f_equal. vm_compute in He. now inversion He.
  - destruct (main_shows_error_on_bad_hit
                plain_integer Npy.argsort repr_unused
                [titled_hit "A"; PDict [("bib", PDict [("author", PInt 3)])]]%string
                10 "Number of Citations" ltac:(lia) ltac:(cbn; lia) eq_refl)
      as (e & _ & _ & He).
    rewrite He. f_equal. vm_compute in He. now inversion He.
Defined.

(** ** First occurrences: distinct and complete *)

Lemma key_eqb_refl (k : pyval) : hashable k = true -> key_eqb k k = true.
Proof.
  destruct k; simpl; try discriminate; intros _; try reflexivity.
  - now destruct b.
  - apply Z.eqb_refl.
  - apply String.eqb_refl.
Qed.

Lemma drop_masked_In {A : Type} (mask : list bool) (l : list A) (x : A) :
  In x (drop_masked mask l) -> In x l.
Proof.
  revert l; induction mask as [|m mask IH]; intros [|y l]; simpl; try tauto.
  destruct m; simpl; [right; now apply IH|].
  intros [H|H]; [now left|right; now apply IH].
Qed.

Lemma drop_masked_length_le {A : Type} (mask : list bool) (l : list A) :
  (List.length (drop_masked mask l) <= List.length l)%nat.
Proof.
  revert l; induction mask as [|m mask IH]; intros [|y l]; simpl; try lia.
  specialize (IH l). destruct m; simpl; lia.
Qed.

Lemma survivors_unseen (seen keys : list pyval) :
  Forall (fun k => existsb (key_eqb k) seen = false)
         (drop_masked (duplicated_from seen keys) keys).
Proof.
  revert seen; induction keys as [|k keys IH]; intros seen; simpl; [constructor|].
  destruct (existsb (key_eqb k) seen) eqn:Hk; simpl; [apply IH|].
  constructor; [exact Hk|].
  specialize (IH (k :: seen)). rewrite Forall_forall in *.
  intros x Hx. specialize (IH x Hx). cbn [existsb] in IH.
  now apply orb_false_iff in IH.
Qed.

Lemma survivors_distinct (seen keys : list pyval) :
  forallb hashable keys = true ->
  distinct_keys (drop_masked (duplicated_from seen keys) keys).
Proof.
  unfold distinct_keys.
  revert seen; induction keys as [|k keys IH]; intros seen Hh; simpl; [constructor|].
  cbn [forallb] in Hh. apply andb_prop in Hh. destruct Hh as [Hhk Hh].
  destruct (existsb (key_eqb k) seen) eqn:Hk; simpl; [now apply IH|].
  constructor; [|now apply IH].
  pose proof (survivors_unseen (k :: seen) keys) as Hu.
  rewrite Forall_forall in *. intros x Hx. specialize (Hu x Hx).
  cbn [existsb] in Hu. apply orb_false_iff in Hu.
  rewrite (key_eqb_sym k x Hhk). tauto.
Qed.

Lemma survivors_cover (seen keys : list pyval) (k : pyval) :
  In k keys -> hashable k = true ->
  existsb (key_eqb k) seen = true
  \/ exists k', In k' (drop_masked (duplicated_from seen keys) keys)
                /\ key_eqb k k' = true.
Proof.
  intros Hin Hh. revert seen; induction keys as [|k0 keys IH]; intros seen;
    [contradiction|].
  cbn [duplicated_from].
  destruct Hin as [-> | Hin].
  - destruct (existsb (key_eqb k) seen) eqn:Hk; [now left|].
    right. exists k. split; [now left|now apply key_eqb_refl].
  - destruct (existsb (key_eqb k0) seen) eqn:Hk0; cbn [drop_masked].
    + apply (IH Hin).
    + destruct (IH Hin (k0 :: seen)) as [Hs | (k' & Hk' & He)].
      * cbn [existsb] in Hs. apply orb_true_iff in Hs.
        destruct Hs as [Hs|Hs]; [|now left].
        right. exists k0. split; [now left|exact Hs].
      * right. exists k'. split; [now right|exact He].
Qed.

(** X5.  After [drop_duplicates] by Title no two rows that are left have
    equal titles, every title that is left was there before, and every
    title of the frame is still there (an equal one is); no row is added,
    and a frame with rows keeps at least its first row. *)
Theorem dedupe_leaves_each_title_once (df : DataFrame) (titles : list pyval) :
  get_column df "Title" = Ok titles ->
  forallb hashable titles = true ->
  exists df' titles',
    drop_duplicates "Title" df = Ok df'
    /\ get_column df' "Title" = Ok titles'
    /\ distinct_keys titles'
    /\ (forall t, In t titles' -> In t titles)
    /\ (forall t, In t titles ->
                  exists t', In t' titles' /\ key_eqb t t' = true)
    /\ (List.length (rows df') <= List.length (rows df))%nat
    /\ hd_error (rows df') = hd_error (rows df).
Proof.
  intros Hk Hh.
  exists (mkDF (columns df) (drop_masked (duplicated titles) (rows df))),
         (drop_masked (duplicated titles) titles).
  split; [now apply drop_duplicates_rows|].
  split; [now apply get_column_dropped|].
  split; [now apply survivors_distinct|].
  split; [intros t; apply drop_masked_In|].
  split.
  { intros t Hin.
    destruct (survivors_cover [] titles t Hin) as [Hs|Hc].
    - rewrite forallb_forall in Hh. now apply Hh.
    - discriminate.
    - exact Hc. }
  split; [apply drop_masked_length_le|].
  cbn [rows]. pose proof (get_column_length _ _ _ Hk) as Hlen.
  unfold duplicated.
  destruct titles as [|t titles], (rows df) as [|r rs]; try discriminate;
    reflexivity.
Qed.

Lemma dedupe_leaves_each_title_once_witness :
  exists df' titles',
    drop_duplicates "Title"
      (mkDF expected_columns
            [[PStr "A"; PStr ""; PInt 2020; PInt 5; PStr "N/A"];
             [PStr "B"; PStr ""; PInt 2019; PInt 1; PStr "N/A"];
             [PStr "A"; PStr ""; PInt 2021; PInt 9; PStr "N/A"]]) = Ok df'
    /\ get_column df' "Title" = Ok titles'
    /\ distinct_keys titles'.
Proof.
  destruct (dedupe_leaves_each_title_once
              (mkDF expected_columns
                    [[PStr "A"; PStr ""; PInt 2020; PInt 5; PStr "N/A"];
                     [PStr "B"; PStr ""; PInt 2019; PInt 1; PStr "N/A"];
                     [PStr "A"; PStr ""; PInt 2021; PInt 9; PStr "N/A"]])
              [PStr "A"; PStr "B"; PStr "A"])
    as (df' & titles' & Hdf & Ht & Hd & _); [reflexivity | reflexivity |].
  exists df', titles'. repeat split; assumption.
Defined.

(** ** The table that [main] shows *)

Lemma set_cell_length (row : list pyval) (i : nat) (v : pyval) :
  List.length (set_cell row i v) = List.length row.
Proof.
  revert i; induction row as [|x row IH]; intros [|i]; simpl; try reflexivity.
  now rewrite IH.
Qed.

Lemma cell_set_cell_other (row : list pyval) (i j : nat) (v : pyval) :
  i <> j -> cell (set_cell row i v) j = cell row j.
Proof.
  unfold cell. revert i j; induction row as [|x row IH]; intros i j Hij.
  - now destruct i.
  - destruct i as [|i], j as [|j]; cbn [set_cell nth]; try reflexivity;
      [congruence|]. apply IH. congruence.
Qed.

Lemma distinct_keys_Permutation (l l' : list pyval) :
  Permutation l l' -> forallb hashable l = true ->
  distinct_keys l -> distinct_keys l'.
Proof.
  unfold distinct_keys.
  induction 1 as [|x l l' HP IH|x y l|l l' l'' HP1 IH1 HP2 IH2]; intros Hh H.
  - constructor.
  - cbn [forallb] in Hh. apply andb_prop in Hh. destruct Hh as [_ Hh].
    inversion H; subst. constructor; [|now apply IH].
    eapply Permutation_Forall; eassumption.
  - cbn [forallb] in Hh. apply andb_prop in Hh. destruct Hh as [_ Hh].
    apply andb_prop in Hh. destruct Hh as [Hhx _].
    inversion H as [|? ? Hy Hrest]; subst.
    inversion Hrest as [|? ? Hx Hl]; subst.
    inversion Hy as [|? ? Hyx Hyl]; subst.
    constructor; [|constructor; assumption].
    constructor; [now rewrite (key_eqb_sym x y Hhx)|assumption].
  - apply IH2; [|now apply IH1].
    rewrite forallb_forall in *. intros k Hk. apply Hh.
    now apply (Permutation_in _ (Permutation_sym HP1)).
Qed.

Lemma with_keys_In (i : nat) (keys : list Z) (rs : list (list pyval))
      (row' : list pyval) :
  In row' (with_keys i keys rs) ->
  exists row k, In row rs /\ row' = set_cell row i (PInt k).
Proof.
  unfold with_keys. intros H. apply in_map_iff in H.
  destruct H as ((row, v) & <- & Hin).
  pose proof (in_combine_l _ _ _ _ Hin) as Hrow.
  apply in_combine_r, in_map_iff in Hin. destruct Hin as (k & <- & _).
  exists row, k. split; [exact Hrow|reflexivity].
Qed.

Lemma with_keys_other_cells (i j : nat) (keys : list Z) (rs : list (list pyval)) :
  j <> i -> List.length keys = List.length rs ->
  map (fun r => cell r j) (with_keys i keys rs) = map (fun r => cell r j) rs.
Proof.
  intros Hij. unfold with_keys.
  revert keys; induction rs as [|r rs IH]; intros [|k keys] Hlen;
    try discriminate; [reflexivity|].
  cbn [map combine fst snd]. rewrite cell_set_cell_other by congruence.
  f_equal. apply IH. now inversion Hlen.
Qed.

Lemma drop_masked_Forall {A : Type} (P : A -> Prop) (mask : list bool) (l : list A) :
  Forall P l -> Forall P (drop_masked mask l).
Proof.
  intros H. rewrite Forall_forall in *. intros x Hx.
  apply H. eapply drop_masked_In; eauto.
Qed.

Lemma parse_frame_shape (papers : list pyval) (top_n : Z) (df : DataFrame) :
  parse_scholarly_papers papers top_n = Ok df ->
  columns df = expected_columns
  /\ Forall (fun row => List.length row = 5%nat) (rows df)
  /\ List.length (rows df) = List.length (py_slice_stop papers top_n).
Proof.
  intros H.
  destruct (traverse paper_record (py_slice_stop papers top_n)) as [data|e] eqn:Ht.
  2:{ rewrite (parse_raises _ _ _ Ht) in H. discriminate. }
  rewrite (parse_of_records _ _ _ Ht) in H. inversion H; subst df; clear H.
  cbn [columns rows]. split; [reflexivity|]. split.
  - assert (Hk : Forall (fun r => map fst r = expected_columns) data).
    { eapply traverse_Forall; [|exact Ht]. apply paper_record_keys. }
    rewrite Forall_forall in *. intros row Hin.
    apply in_map_iff in Hin. destruct Hin as (r & <- & Hin).
    now rewrite length_map, <- (length_map fst), (Hk r Hin).
  - rewrite length_map. exact (traverse_length _ _ _ Ht).
Qed.

Lemma sort_position (sort_by : string) (i : nat) :
  col_pos expected_columns (sort_column sort_by) = Some i ->
  i <> 0%nat /\ i <> 4%nat.
Proof.
  unfold sort_column.
  destruct (String.eqb sort_by "Number of Citations"); cbn;
    intros H; inversion H; split; discriminate.
Qed.

(** X6.  When something was fetched, the considered hits are parsed and
    de-duplicated without an error, their titles can be hashed, every cell
    of the sort column is missing, not a number, or a finite number of
    magnitude at most 2^53, and the index sort meets its contract, [main]
    shows a table; the table has the five columns and one cell per column
    in every row, at least one row and at most [top_n] rows, no two rows
    with equal titles, only titles of considered hits, its rows in
    descending order of the sort key, and a rendered link in every Link
    cell. *)
Theorem main_table_invariants
        (to_number : string -> reading) (argsort : list Z -> list nat)
        (repr : pyval -> string)
        (search_results : list pyval) (top_n : Z) (sort_by : string)
        (df1 : DataFrame) (i : nat) (keys : list Z) :
  0 < top_n -> (0 < List.length search_results)%nat ->
  (papers_df <- parse_scholarly_papers search_results top_n ;;
   drop_duplicates "Title" papers_df) = Ok df1 ->
  forallb (fun h => hashable (hit_title h))
          (firstn (Z.to_nat top_n) search_results) = true ->
  col_pos expected_columns (sort_column sort_by) = Some i ->
  forallb (fun v => representable (to_numeric to_number v)) (cells i df1) = true ->
  sort_keys to_number i df1 = Ok keys ->
  argsort_ok (rev keys) (argsort (rev keys)) = true ->
  exists df titles keys',
    main to_number argsort repr search_results top_n sort_by = Table df
    /\ columns df = expected_columns
    /\ Forall (fun row => List.length row = 5%nat) (rows df)
    /\ (1 <= List.length (rows df)
        <= Nat.min (Z.to_nat top_n) (List.length search_results))%nat
    /\ List.length (rows df) = List.length (rows df1)
    /\ get_column df "Title" = Ok titles
    /\ distinct_keys titles
    /\ (forall t, In t titles ->
                  exists h, In h (firstn (Z.to_nat top_n) search_results)
                            /\ hit_title h = t)
    /\ sort_keys to_number i df = Ok keys'
    /\ Permutation (map (number_or_zero to_number) (cells i df1)) keys'
    /\ descending keys'
    /\ Forall (fun row => exists link,
                   row_cell df row "Link" = Some (PStr (make_clickable repr link)))
              (rows df).
Proof.
  intros Hn Hs Hdf1 Hhash Hpos Hrep Hkeys Hok.
  assert (Hvalues : keys = map (number_or_zero to_number) (cells i df1)).
  { rewrite (sort_keys_representable _ _ _ Hrep) in Hkeys. now inversion Hkeys. }
  rewrite <- Hvalues. clear Hrep Hvalues.
  destruct (parse_scholarly_papers search_results top_n) as [df0|e] eqn:Hdf0;
    cbn [bind] in Hdf1; [|discriminate].
  destruct (parse_frame_shape _ _ _ Hdf0) as (Hcols0 & Hshape0 & Hlen0).
  destruct (parse_titles _ _ _ Hdf0) as (_ & Hk0).
  rewrite py_slice_stop_nonneg in Hlen0, Hk0 by lia.
  set (hits := firstn (Z.to_nat top_n) search_results) in *.
  assert (Hh : forallb hashable (map hit_title hits) = true).
  { rewrite forallb_forall in *. intros t Hin.
    apply in_map_iff in Hin. destruct Hin as (h & <- & Hin). now apply Hhash. }
  (* the de-duplicated frame *)
  unfold drop_duplicates in Hdf1. rewrite Hk0 in Hdf1. cbn [bind] in Hdf1.
  inversion Hdf1; subst df1; clear Hdf1.
  set (mask := duplicated (map hit_title hits)) in *.
  set (rows1 := drop_masked mask (rows df0)) in *.
  assert (Hrows0 : map (fun r => cell r 0) (rows df0) = map hit_title hits).
  { unfold get_column in Hk0. rewrite Hcols0 in Hk0. cbn in Hk0. now inversion Hk0. }
  assert (Htitles1 : map (fun r => cell r 0) rows1 = drop_masked mask (map hit_title hits)).
  { unfold rows1. now rewrite drop_masked_map, Hrows0. }
  assert (Hshape1 : Forall (fun row => List.length row = 5%nat) rows1)
    by now apply drop_masked_Forall.
  assert (Hne1 : (1 <= List.length rows1)%nat).
  { assert (Hlen : (1 <= List.length hits)%nat).
    { unfold hits. rewrite length_firstn. lia. }
    assert (Hm : List.length (map (fun r => cell r 0) rows1) = List.length rows1)
      by apply length_map.
    rewrite Htitles1 in Hm. rewrite <- Hm. unfold mask, duplicated.
    destruct hits as [|h hs]; [cbn in Hlen; lia|]. cbn. lia. }
  (* the sort step *)
  rewrite Hcols0 in *.
  destruct (sort_position _ _ Hpos) as [Hi0 Hi4].
  destruct (sort_by_column_sound to_number argsort (sort_column sort_by)
              (mkDF expected_columns rows1) i keys Hpos Hkeys Hok)
    as (indexer & HP & Hsort & Hread & Hdesc).
  cbn [columns rows] in HP, Hsort, Hread.
  assert (Hlenk : List.length keys = List.length rows1).
  { unfold sort_keys, cells in Hkeys. cbn [rows] in Hkeys.
    rewrite (traverse_length _ _ _ Hkeys). apply length_map. }
  set (rows2 := with_keys i keys rows1) in *.
  set (rows3 := map (fun j => nth j rows2 []) indexer) in *.
  assert (HP3 : Permutation rows2 rows3).
  { apply take_permutation. unfold rows2. now rewrite with_keys_length. }
  assert (Hshape3 : Forall (fun row => List.length row = 5%nat) rows3).
  { eapply Permutation_Forall; [exact HP3|].
    rewrite Forall_forall in *. intros row Hin.
    apply with_keys_In in Hin. destruct Hin as (r & k & Hin & ->).
    rewrite set_cell_length. now apply Hshape1. }
  assert (Htitles3 : Permutation (drop_masked mask (map hit_title hits))
                                 (map (fun r => cell r 0) rows3)).
  { rewrite <- Htitles1.
    transitivity (map (fun r => cell r 0) rows2); [|now apply Permutation_map].
    unfold rows2. now rewrite with_keys_other_cells by auto. }
  (* the link column *)
  set (render := fun r : list pyval =>
                   set_cell r 4 (PStr (make_clickable repr (cell r 4)))).
  assert (Hmain : main to_number argsort repr search_results top_n sort_by
                  = Table (mkDF expected_columns (map render rows3))).
  { rewrite main_of_rank by assumption. unfold rank.
    rewrite Hdf0. cbn [bind].
    unfold drop_duplicates. rewrite Hk0. cbn [bind].
    rewrite Hcols0. fold mask. fold rows1.
    rewrite sort_step_branch, Hsort. cbn [bind].
    unfold render_links.
    rewrite (get_column_rows _ _ _ 4%nat) by reflexivity. cbn [bind].
    unfold set_column. cbn [columns rows].
    change (col_pos expected_columns "Link") with (Some 4%nat). cbv iota.
    rewrite map_map, map_combine_map. reflexivity. }
  exists (mkDF expected_columns (map render rows3)),
         (map (fun r => cell r 0) rows3),
         (map (fun j => nth j keys 0) indexer).
  split; [exact Hmain|].
  split; [reflexivity|].
  cbn [rows columns].
  split.
  { rewrite Forall_forall in *. intros row Hin.
    apply in_map_iff in Hin. destruct Hin as (r & <- & Hin).
    unfold render. rewrite set_cell_length. now apply Hshape3. }
  assert (Hlen3 : List.length rows3 = List.length rows1).
  { rewrite <- (Permutation_length HP3). unfold rows2.
    now apply with_keys_length. }
  split.
  { rewrite length_map, Hlen3. split; [exact Hne1|].
    unfold rows1. etransitivity; [apply drop_masked_length_le|].
    rewrite Hlen0. unfold hits. rewrite length_firstn. lia. }
  split; [now rewrite length_map|].
  split.
  { rewrite (get_column_rows _ _ _ 0%nat) by reflexivity.
    f_equal. rewrite map_map. apply map_ext. intros r.
    unfold render. now rewrite cell_set_cell_other. }
  split.
  { eapply distinct_keys_Permutation; [exact Htitles3| |].
    - now apply drop_masked_forallb.
    - now apply survivors_distinct. }
  split.
  { intros t Ht.
    apply (Permutation_in _ (Permutation_sym Htitles3)) in Ht.
    apply drop_masked_In in Ht. apply in_map_iff in Ht.
    destruct Ht as (h & Hh' & Hin). eauto. }
  split.
  { rewrite <- Hread. unfold sort_keys, cells. cbn [rows]. f_equal.
    rewrite map_map. apply map_ext. intros r.
    unfold render. now rewrite cell_set_cell_other by congruence. }
  split.
  { apply take_permutation. now rewrite Hlenk. }
  split; [exact Hdesc|].
  rewrite Forall_forall in *. intros row Hin.
  apply in_map_iff in Hin. destruct Hin as (r & <- & Hin).
  exists (cell r 4). unfold row_cell. cbn [columns].
  change (col_pos expected_columns "Link") with (Some 4%nat).
  specialize (Hshape3 r Hin). unfold render, cell.
  destruct r as [|c0 [|c1 [|c2 [|c3 [|c4 [|? ?]]]]]]; try discriminate.
  reflexivity.
Qed.

Lemma main_table_invariants_witness :
  exists df titles keys',
    main plain_integer (answering [0; 1]%nat) repr_unused sample_results 10
         "Publication Year"
    = Table df
    /\ get_column df "Title" = Ok titles
    /\ distinct_keys titles
    /\ sort_keys plain_integer 2 df = Ok keys'
    /\ descending keys'.
Proof.
  destruct (main_table_invariants
              plain_integer (answering [0; 1]%nat) repr_unused sample_results 10
              "Publication Year"
              (mkDF expected_columns
                    [[PStr "A"; PStr ""; PStr "2019"; PInt 5; PStr "http://a"];
                     [PStr "B"; PStr ""; PStr "N/A"; PInt 0; PStr "N/A"]])
              2%nat [2019; 0])
    as (df & titles & keys' & Hmain & _ & _ & _ & _ & Ht & Hd & _ & Hk & _ & Hs & _);
    [lia | cbn; lia | vm_compute; reflexivity | reflexivity | reflexivity
     | reflexivity | reflexivity | reflexivity |].
  exists df, titles, keys'. repeat split; assumption.
Defined.

(** ** Sorting by one column *)

(** X7.  On a frame whose sort column holds only cells that are missing,
    not numbers, or finite numbers of magnitude at most 2^53, the sort step
    coerces the column it sorts by and no other: every row of the result is
    a row of the given frame in which the cell of the sort column now holds
    the number it stood for (0 if it was not a number) and every other cell
    is as it was, and no row is lost or added.  Any sort option other than
    "Number of Citations" sorts by Publication Year. *)
Theorem sort_step_touches_one_column
        (to_number : string -> reading) (argsort : list Z -> list nat)
        (sort_by : string) (df : DataFrame) (i : nat) (keys : list Z) :
  col_pos (columns df) (sort_column sort_by) = Some i ->
  forallb (fun v => representable (to_numeric to_number v)) (cells i df) = true ->
  sort_keys to_number i df = Ok keys ->
  argsort_ok (rev keys) (argsort (rev keys)) = true ->
  exists df',
    sort_step to_number argsort sort_by df = Ok df'
    /\ List.length (rows df') = List.length (rows df)
    /\ Forall (fun row' =>
                 exists row, In row (rows df)
                             /\ List.length row' = List.length row
                             /\ (forall j, j <> i -> cell row' j = cell row j)
                             /\ ((i < List.length row)%nat ->
                                 cell row' i
                                 = PInt (number_or_zero to_number (cell row i))))
              (rows df')
    /\ sort_step to_number argsort sort_by df
       = sort_step to_number argsort (sort_column sort_by) df.
Proof.
  intros Hpos Hrep Hkeys Hok.
  destruct (sort_by_column_sound to_number argsort _ df i keys Hpos Hkeys Hok)
    as (indexer & HP & Hsort & _).
  assert (Hvalues : keys = map (number_or_zero to_number) (cells i df)).
  { rewrite (sort_keys_representable _ _ _ Hrep) in Hkeys. now inversion Hkeys. }
  assert (Hlen : List.length keys = List.length (rows df)).
  { unfold sort_keys, cells in Hkeys.
    rewrite (traverse_length _ _ _ Hkeys). apply length_map. }
  assert (HP' : Permutation (with_keys i keys (rows df))
                            (map (fun j => nth j (with_keys i keys (rows df)) [])
                                 indexer)).
  { apply take_permutation. now rewrite with_keys_length. }
  eexists. split; [rewrite sort_step_branch; exact Hsort|].
  cbn [rows]. split.
  { now rewrite <- (Permutation_length HP'), with_keys_length. }
  split.
  { rewrite Forall_forall. intros row' Hin.
    apply (Permutation_in _ (Permutation_sym HP')) in Hin.
    rewrite Hvalues in Hin. unfold cells in Hin. rewrite with_keys_map in Hin.
    apply in_map_iff in Hin. destruct Hin as (row & <- & Hin).
    exists row. split; [exact Hin|].
    split; [apply set_cell_length|].
    split.
    - intros j Hj. apply cell_set_cell_other. congruence.
    - intros Hi. rewrite cell_set_cell.
      apply Nat.ltb_lt in Hi. now rewrite Hi. }
  rewrite !sort_step_branch. f_equal.
  unfold sort_column.
  destruct (String.eqb sort_by "Number of Citations"); reflexivity.
Qed.

Lemma sort_step_touches_one_column_witness :
  exists df',
    sort_step plain_integer (answering [1; 0]%nat) "Number of Citations"
      (mkDF expected_columns
            [[PStr "A"; PStr ""; PStr "N/A"; PStr "7"; PStr "N/A"];
             [PStr "B"; PStr ""; PStr "2020"; PInt 9; PStr "N/A"]]) = Ok df'
    /\ List.length (rows df') = 2%nat.
Proof.
  destruct (sort_step_touches_one_column
              plain_integer (answering [1; 0]%nat) "Number of Citations"
              (mkDF expected_columns
                    [[PStr "A"; PStr ""; PStr "N/A"; PStr "7"; PStr "N/A"];
                     [PStr "B"; PStr ""; PStr "2020"; PInt 9; PStr "N/A"]])
              3%nat [7; 9])
    as (df' & Hdf & Hlen & _);
    [reflexivity | reflexivity | reflexivity | reflexivity |].
  exists df'. split; [exact Hdf | exact Hlen].
Defined.

(** ** Links of different urls *)

Lemma append_length_sum (a b : string) :
  String.length (a ++ b) = (String.length a + String.length b)%nat.
Proof. induction a as [|c a IH]; simpl; [reflexivity|now rewrite IH]. Qed.

Lemma append_cancel_l (p a b : string) :
  (p ++ a)%string = (p ++ b)%string -> a = b.
Proof.
  induction p as [|c p IH]; simpl; intros H; [exact H|].
  inversion H. now apply IH.
Qed.

Lemma append_cancel_r (a b s : string) :
  (a ++ s)%string = (b ++ s)%string -> a = b.
Proof.
  revert b; induction a as [|c a IH]; intros [|d b] H; simpl in H.
  - reflexivity.
  - exfalso. apply (f_equal String.length) in H. simpl in H.
    rewrite append_length_sum in H. lia.
  - exfalso. apply (f_equal String.length) in H. simpl in H.
    rewrite append_length_sum in H. lia.
  - inversion H. f_equal. now apply IH.
Qed.

Lemma anchor_injective (u u' : string) : anchor u = anchor u' -> u = u'.
Proof.
  unfold anchor. intros H.
  apply append_cancel_l in H. apply append_cancel_l in H.
  now apply append_cancel_r in H.
Qed.

(** X8.  [make_clickable] renders different urls as different links: two
    [str] urls with the same rendering are the same url, unless both are
    rendered as "N/A" (each is empty or the marker). *)
Theorem make_clickable_keeps_urls_apart
        (repr : pyval -> string) (url url' : string) :
  make_clickable repr (PStr url) = make_clickable repr (PStr url') ->
  url = url'
  \/ ((url = EmptyString \/ url = "N/A"%string)
      /\ (url' = EmptyString \/ url' = "N/A"%string)).
Proof.
  assert (Hna : forall u, make_clickable repr (PStr u) = anchor u
                          \/ (make_clickable repr (PStr u) = "N/A"%string
                              /\ (u = EmptyString \/ u = "N/A"%string))).
  { intros u. unfold make_clickable. cbn [py_truthy py_ne_str py_format].
    destruct (String.eqb_spec u EmptyString) as [->|He]; [right; auto|].
    destruct (String.eqb_spec u "N/A") as [->|Hn]; [right; auto|].
    left. reflexivity. }
  intros H.
  destruct (Hna url) as [Hu | [Hu Hc]], (Hna url') as [Hu' | [Hu' Hc']];
    rewrite Hu, Hu' in H.
  - left. now apply anchor_injective.
  - discriminate.
  - discriminate.
  - right. split; assumption.
Qed.

Lemma make_clickable_keeps_urls_apart_witness :
  (EmptyString = "N/A"%string
   \/ ((EmptyString = EmptyString \/ EmptyString = "N/A"%string)
       /\ ("N/A"%string = EmptyString \/ "N/A"%string = "N/A"%string)))
  /\ ("http://x"%string = "http://x"%string
      \/ (("http://x"%string = EmptyString \/ "http://x"%string = "N/A"%string)
          /\ ("http://x"%string = EmptyString \/ "http://x"%string = "N/A"%string))).
Proof.
  split.
  - exact (make_clickable_keeps_urls_apart repr_unused EmptyString "N/A" eq_refl).
  - exact (make_clickable_keeps_urls_apart repr_unused "http://x" "http://x" eq_refl).
Defined.

(** ** Parsing hit by hit *)

Lemma traverse_app {A B : Type} (f : A -> result B) (xs ys : list A) :
  traverse f (xs ++ ys)
  = (a <- traverse f xs ;; b <- traverse f ys ;; Ok (a ++ b)).
Proof.
  induction xs as [|x xs IH]; cbn [app traverse bind].
  - now destruct (traverse f ys).
  - destruct (f x) as [y|e]; cbn [bind]; [|reflexivity].
    rewrite IH. destruct (traverse f xs) as [a|e]; cbn [bind]; [|reflexivity].
    now destruct (traverse f ys).
Qed.

Lemma parse_as_traverse (papers : list pyval) (top_n : Z) :
  parse_scholarly_papers papers top_n
  = (data <- traverse paper_record (py_slice_stop papers top_n) ;;
     Ok (mkDF expected_columns (map (map snd) data))).
Proof.
  destruct (traverse paper_record (py_slice_stop papers top_n)) as [data|e] eqn:H.
  - now apply parse_of_records.
  - now apply parse_raises.
Qed.

Lemma py_slice_stop_all {A : Type} (l : list A) (stop : Z) :
  Z.of_nat (List.length l) <= stop -> py_slice_stop l stop = l.
Proof.
  intros H. rewrite py_slice_stop_nonneg by lia. apply firstn_all2. lia.
Qed.

(** X9.  Every hit is parsed on its own and the rows keep the order of the
    hits: within the limit, parsing two lists of hits one after the other
    gives the rows of the first followed by the rows of the second, and
    the first hit that cannot be parsed decides the exception. *)
Theorem parse_of_concatenation (papers papers' : list pyval) (top_n : Z) :
  Z.of_nat (List.length papers + List.length papers') <= top_n ->
  parse_scholarly_papers (papers ++ papers') top_n
  = (df <- parse_scholarly_papers papers top_n ;;
     df' <- parse_scholarly_papers papers' top_n ;;
     Ok (mkDF expected_columns (rows df ++ rows df'))).
Proof.
  intros H. rewrite !parse_as_traverse.
  rewrite !py_slice_stop_all by (rewrite ?length_app; lia).
  rewrite traverse_app.
  destruct (traverse paper_record papers) as [a|e]; cbn [bind]; [|reflexivity].
  destruct (traverse paper_record papers') as [b|e]; cbn [bind]; [|reflexivity].
  cbn [rows]. now rewrite map_app.
Qed.

Lemma parse_of_concatenation_witness :
  parse_scholarly_papers ([titled_hit "A"] ++ [titled_hit "B"; PNone]) 10
  = (df <- parse_scholarly_papers [titled_hit "A"] 10 ;;
     df' <- parse_scholarly_papers [titled_hit "B"; PNone] 10 ;;
     Ok (mkDF expected_columns (rows df ++ rows df'))).
Proof.
  apply (parse_of_concatenation [titled_hit "A"] [titled_hit "B"; PNone] 10).
  cbn. lia.
Defined.

(** X10.  A negative limit is not rejected: [papers[:top_n]] then leaves out
    the last [- top_n] hits, so the function does what it does for the
    limit [max 0 (len(papers) + top_n)]. *)
Theorem parse_with_negative_limit (papers : list pyval) (top_n : Z) :
  top_n < 0 ->
  parse_scholarly_papers papers top_n
  = parse_scholarly_papers papers (Z.max 0 (Z.of_nat (List.length papers) + top_n))
  /\ List.length (py_slice_stop papers top_n)
     = (List.length papers - Z.to_nat (- top_n))%nat.
Proof.
  intros H. split.
  - rewrite !parse_as_traverse.
    rewrite (py_slice_stop_nonneg papers (Z.max 0 _)) by lia.
    unfold py_slice_stop. destruct (Z.ltb_spec top_n 0); [|lia].
    do 3 f_equal. lia.
  - unfold py_slice_stop. destruct (Z.ltb_spec top_n 0); [|lia].
    rewrite length_firstn. lia.
Qed.

Lemma parse_with_negative_limit_witness :
  parse_scholarly_papers [titled_hit "A"; titled_hit "B"; PNone] (-1)
  = parse_scholarly_papers [titled_hit "A"; titled_hit "B"; PNone] 2.
Proof.
  exact (proj1 (parse_with_negative_limit
                  [titled_hit "A"; titled_hit "B"; PNone] (-1) eq_refl)).
Defined.

(** ** The uploaded table and the selection *)

Lemma boolean_index_filter {A : Type} (p : A -> bool) (l : list A) :
  boolean_index (map p l) l = filter p l.
Proof.
  induction l as [|x l IH]; simpl; [reflexivity|].
  destruct (p x); now rewrite IH.
Qed.

Lemma boolean_index_map_filter {A B : Type} (f : A -> B) (p : B -> bool) (l : list A) :
  boolean_index (map p (map f l)) l = filter (fun x => p (f x)) l.
Proof. rewrite map_map. apply boolean_index_filter. Qed.

Lemma filter_first {A : Type} (p : A -> bool) (l : list A) (x : A) (rest : list A) :
  filter p l = x :: rest ->
  exists before after,
    l = before ++ x :: after
    /\ p x = true
    /\ Forall (fun y => p y = false) before.
Proof.
  induction l as [|y l IH]; simpl; [discriminate|].
  destruct (p y) eqn:Hy.
  - intros H. inversion H; subst. exists [], l. repeat split; auto.
  - intros H. destruct (IH H) as (before & after & -> & Hx & Hb).
    exists (y :: before), after. repeat split; auto.
Qed.

Lemma filter_nonempty {A : Type} (p : A -> bool) (l : list A) (x : A) :
  In x l -> p x = true -> filter p l <> [].
Proof.
  intros Hin Hp H. assert (Hx : In x (filter p l)) by (apply filter_In; auto).
  rewrite H in Hx. contradiction.
Qed.

Lemma selectbox_In {A : Type} (none : A) (options : list A) (choice : nat) :
  options <> [] -> In (selectbox none options choice) options.
Proof.
  intros Hne. unfold selectbox.
  destruct (Nat.lt_ge_cases choice (List.length options)) as [Hlt|Hge].
  - now apply nth_In.
  - rewrite nth_overflow by exact Hge.
    destruct options as [|o options]; [congruence|now left].
Qed.

Lemma hashable_dropna (values : list pyval) :
  forallb hashable (dropna values) = forallb hashable values.
Proof.
  unfold dropna. induction values as [|v values IH]; simpl; [reflexivity|].
  destruct v; simpl; rewrite ?IH; reflexivity.
Qed.

Lemma eq_scalar_refl (v : pyval) :
  hashable v = true -> isna v = false -> eq_scalar v v = true.
Proof.
  intros Hh Hn. unfold eq_scalar. rewrite Hn. cbn [orb].
  now apply key_eqb_refl.
Qed.

(** X11.  The technology names that are offered are the names of the
    uploaded table without the missing ones, each once and in the order of
    their first row: no two of them are equal, each is the name of a row,
    and every name of a row that is not missing is offered. *)
Theorem technology_names_distinct_and_complete
        (df : DataFrame) (names : list pyval) :
  get_column df "Technology Name" = Ok names ->
  forallb hashable names = true ->
  exists offered,
    technology_names df = Ok offered
    /\ distinct_keys offered
    /\ Forall (fun t => isna t = false /\ In t names) offered
    /\ (forall t, In t names -> isna t = false ->
                  exists t', In t' offered /\ key_eqb t t' = true)
    /\ (offered = [] <-> forallb isna names = true).
Proof.
  intros Hk Hh.
  exists (drop_masked (duplicated (dropna names)) (dropna names)).
  split.
  { unfold technology_names, unique. rewrite Hk. cbn [bind].
    now rewrite hashable_dropna, Hh. }
  split; [apply survivors_distinct; now rewrite hashable_dropna|].
  split.
  { rewrite Forall_forall. intros t Ht. apply drop_masked_In in Ht.
    unfold dropna in Ht. apply filter_In in Ht. destruct Ht as [Hin Hn].
    split; [now apply negb_true_iff in Hn|exact Hin]. }
  split.
  { intros t Hin Hn.
    assert (Hd : In t (dropna names)).
    { unfold dropna. apply filter_In. split; [exact Hin|now rewrite Hn]. }
    destruct (survivors_cover [] (dropna names) t Hd) as [Hs|Hc].
    - rewrite forallb_forall in Hh. now apply Hh.
    - discriminate.
    - exact Hc. }
  unfold duplicated. split.
  - intros He. apply forallb_forall. intros t Hin.
    destruct (isna t) eqn:Hn; [reflexivity|]. exfalso.
    assert (Hd : In t (dropna names)).
    { unfold dropna. apply filter_In. split; [exact Hin|now rewrite Hn]. }
    destruct (dropna names) as [|d ds]; [contradiction|]. discriminate.
  - intros Hall.
    assert (Hd : dropna names = []).
    { unfold dropna. clear -Hall. induction names as [|n names IH]; [reflexivity|].
      cbn [forallb] in Hall. apply andb_prop in Hall. destruct Hall as [Hn Hr].
      cbn [filter]. rewrite Hn. cbn [negb]. now apply IH. }
    now rewrite Hd.
Qed.

Lemma technology_names_distinct_and_complete_witness :
  exists offered,
    technology_names sample_table = Ok offered
    /\ distinct_keys offered.
Proof.
  destruct (technology_names_distinct_and_complete
              sample_table [PStr "Flare"; PNone; PStr "Sniffer"; PStr "Flare"])
    as (offered & Ho & Hd & _); [reflexivity | reflexivity |].
  exists offered. split; [exact Ho | exact Hd].
Defined.

(** X12.  For a name that is offered, the row selection never fails: it
    returns the first row of the uploaded table whose name equals the
    selected one; the rows before it have other names or none. *)
Theorem select_row_takes_first_match
        (df : DataFrame) (i : nat) (offered : list pyval) (selected_technology : pyval) :
  col_pos (columns df) "Technology Name" = Some i ->
  technology_names df = Ok offered ->
  In selected_technology offered ->
  exists before selected_row after,
    select_row df selected_technology = Ok selected_row
    /\ rows df = before ++ selected_row :: after
    /\ eq_scalar (cell selected_row i) selected_technology = true
    /\ Forall (fun r => eq_scalar (cell r i) selected_technology = false) before.
Proof.
  intros Hpos Ho Hin.
  unfold technology_names, get_column in Ho. rewrite Hpos in Ho. cbn [bind] in Ho.
  unfold unique in Ho.
  destruct (forallb hashable (dropna (map (fun r => cell r i) (rows df)))) eqn:Hh;
    [|discriminate].
  inversion Ho; subst offered; clear Ho.
  apply drop_masked_In in Hin.
  assert (Hhs : hashable selected_technology = true).
  { rewrite forallb_forall in Hh. now apply Hh. }
  unfold dropna in Hin. apply filter_In in Hin. destruct Hin as [Hin Hn].
  apply negb_true_iff in Hn.
  apply in_map_iff in Hin. destruct Hin as (r & Hr & Hrin).
  assert (Hsel : select_row df selected_technology
                 = iloc0 (filter (fun r => eq_scalar (cell r i) selected_technology)
                                 (rows df))).
  { unfold select_row, get_column. rewrite Hpos. cbn [bind].
    now rewrite (boolean_index_map_filter
                   (fun r => cell r i) (fun x => eq_scalar x selected_technology)). }
  destruct (filter (fun r => eq_scalar (cell r i) selected_technology) (rows df))
    as [|row rest] eqn:Hf.
  - exfalso. revert Hf.
    apply (filter_nonempty _ _ r Hrin). rewrite Hr. now apply eq_scalar_refl.
  - destruct (filter_first _ _ _ _ Hf) as (before & after & Hrows & Hrow & Hb).
    exists before, row, after. rewrite Hsel. repeat split; assumption.
Qed.

Lemma select_row_takes_first_match_witness :
  exists before selected_row after,
    select_row sample_table (PStr "Flare") = Ok selected_row
    /\ rows sample_table = before ++ selected_row :: after.
Proof.
  destruct (select_row_takes_first_match
              sample_table 2 [PStr "Flare"; PStr "Sniffer"] (PStr "Flare"))
    as (before & row & after & Hs & Hr & _);
    [reflexivity | reflexivity | simpl; auto |].
  exists before, row, after. split; [exact Hs | exact Hr].
Defined.

(** ** One run of the page *)

Lemma select_row_of_present_name (df : DataFrame) (i : nat) (selected : pyval) :
  col_pos (columns df) "Technology Name" = Some i ->
  In selected (map (fun r => cell r i) (rows df)) ->
  hashable selected = true -> isna selected = false ->
  exists row, select_row df selected = Ok row
              /\ In row (rows df)
              /\ eq_scalar (cell row i) selected = true.
Proof.
  intros Hpos Hin Hh Hn.
  apply in_map_iff in Hin. destruct Hin as (r & Hr & Hrin).
  unfold select_row, get_column. rewrite Hpos. cbn [bind].
  rewrite (boolean_index_map_filter
             (fun r => cell r i) (fun x => eq_scalar x selected)).
  destruct (filter (fun r => eq_scalar (cell r i) selected) (rows df))
    as [|row rest] eqn:Hf.
  - exfalso. revert Hf. apply (filter_nonempty _ _ r Hrin).
    rewrite Hr. now apply eq_scalar_refl.
  - exists row. split; [reflexivity|].
    assert (Hrow : In row (filter (fun r => eq_scalar (cell r i) selected) (rows df)))
      by (rewrite Hf; now left).
    apply filter_In in Hrow. exact Hrow.
Qed.

Lemma select_row_of_missing (df : DataFrame) (i : nat) (selected : pyval) :
  col_pos (columns df) "Technology Name" = Some i ->
  isna selected = true ->
  select_row df selected = Raise IndexError.
Proof.
  intros Hpos Hn. unfold select_row, get_column. rewrite Hpos. cbn [bind].
  rewrite (boolean_index_map_filter
             (fun r => cell r i) (fun x => eq_scalar x selected)).
  replace (filter (fun r => eq_scalar (cell r i) selected) (rows df))
    with (@nil (list pyval)); [reflexivity|].
  symmetry. induction (rows df) as [|r rs IH]; [reflexivity|].
  cbn [filter]. unfold eq_scalar at 1. rewrite Hn, orb_true_r. exact IH.
Qed.

Lemma dropna_nonempty (values : list pyval) :
  forallb isna values = false -> dropna values <> [].
Proof.
  unfold dropna. induction values as [|v values IH]; [discriminate|].
  cbn [forallb filter]. destruct (isna v); cbn [andb negb]; [exact IH|discriminate].
Qed.

Lemma dropna_all_missing (values : list pyval) :
  forallb isna values = true -> dropna values = [].
Proof.
  unfold dropna. induction values as [|v values IH]; [reflexivity|].
  cbn [forallb filter]. destruct (isna v); cbn [andb negb]; [exact IH|discriminate].
Qed.

Lemma get_column_pos (df : DataFrame) (col : string) (values : list pyval) :
  get_column df col = Ok values ->
  exists i, col_pos (columns df) col = Some i
            /\ values = map (fun r => cell r i) (rows df).
Proof.
  unfold get_column. destruct (col_pos (columns df) col) as [i|]; [|discriminate].
  intros H. inversion H. eauto.
Qed.

(** X13.  For an uploaded table that has the three required columns and at
    least one technology name that is not missing (all names hashable),
    the page never ends with a file error, whatever is picked in the
    select boxes: the selected technology is a name of the table that is
    not missing, the limit is one of 10, 20 and 30 and the sort option one
    of the two offered; without a press of the button the form is shown
    and the search client is not asked, with a press the outcome is that of
    the retrieval for the selected technology. *)
Theorem main_script_on_a_named_table
        (to_number : string -> reading) (argsort : list Z -> list nat)
        (repr : pyval -> string)
        (search_pubs : string -> result (list (result pyval)))
        (df : DataFrame) (names : list pyval)
        (technology_choice top_n_choice sort_choice : nat) :
  forallb (has_column df) required_columns = true ->
  get_column df "Technology Name" = Ok names ->
  forallb hashable names = true ->
  forallb isna names = false ->
  exists selected_technology selected_category selected_tech_type top_n sort_by,
    In selected_technology names
    /\ isna selected_technology = false
    /\ In top_n [10; 20; 30]
    /\ In sort_by sort_options
    /\ main_script to_number argsort repr search_pubs (Some (Ok df))
                   technology_choice top_n_choice sort_choice false
       = FormShown selected_technology selected_category selected_tech_type
    /\ main_script to_number argsort repr search_pubs (Some (Ok df))
                   technology_choice top_n_choice sort_choice true
       = Retrieved (button_pressed to_number argsort repr search_pubs
                                   selected_technology top_n sort_by).
Proof.
  intros Hcols Hk Hh Hna.
  destruct (get_column_pos _ _ _ Hk) as (i & Hpos & Hnames).
  set (offered := drop_masked (duplicated (dropna names)) (dropna names)).
  assert (Ho : technology_names df = Ok offered).
  { unfold technology_names, unique. rewrite Hk. cbn [bind].
    now rewrite hashable_dropna, Hh. }
  assert (Hne : offered <> []).
  { pose proof (dropna_nonempty _ Hna) as Hd. unfold offered, duplicated.
    destruct (dropna names) as [|d ds]; [congruence|discriminate]. }
  set (selected := selectbox PNone offered technology_choice).
  assert (Hsel : In selected (dropna names)).
  { apply (drop_masked_In (duplicated (dropna names))).
    now apply selectbox_In. }
  unfold dropna in Hsel. apply filter_In in Hsel. destruct Hsel as [Hin Hn].
  apply negb_true_iff in Hn.
  assert (Hhs : hashable selected = true).
  { rewrite forallb_forall in Hh. now apply Hh. }
  destruct (select_row_of_present_name df i selected Hpos) as (row & Hrow & _);
    [now rewrite <- Hnames | exact Hhs | exact Hn |].
  exists selected,
         (row_get df row "Category (Value Chain)" (PStr "N/A")),
         (row_get df row "Technology Type" (PStr "N/A")),
         (selectbox 0 top_n_options top_n_choice),
         (selectbox EmptyString sort_options sort_choice).
  split; [exact Hin|]. split; [exact Hn|].
  split; [apply selectbox_In; discriminate|].
  split; [apply selectbox_In; discriminate|].
  unfold main_script, sidebar. rewrite Hcols, Ho. cbn [bind].
  fold selected. rewrite Hrow. cbn [bind]. split; reflexivity.
Qed.

Lemma main_script_on_a_named_table_witness :
  exists selected_technology selected_category selected_tech_type,
    main_script plain_integer Npy.argsort repr_unused (fun _ => Ok [])
                (Some (Ok sample_table)) 1 0 0 false
    = FormShown selected_technology selected_category selected_tech_type.
Proof.
  destruct (main_script_on_a_named_table
              plain_integer Npy.argsort repr_unused (fun _ => Ok [])
              sample_table [PStr "Flare"; PNone; PStr "Sniffer"; PStr "Flare"]
              1 0 0)
    as (s & c & t & _ & _ & _ & _ & _ & _ & Hform & _);
    [reflexivity | reflexivity | reflexivity | reflexivity |].
  exists s, c, t. exact Hform.
Defined.

(** X14.  The page stops before the search in four cases, whatever the
    select boxes, the button and the search client are: no file was
    uploaded; the file could not be read; one of the three required
    columns is missing; the columns are there but the technology names are
    all missing (the row selection raises [IndexError]) or one of them
    cannot be hashed ([TypeError]) - the last two are reported as errors of
    reading the file. *)
Theorem main_script_stops_before_the_search
        (to_number : string -> reading) (argsort : list Z -> list nat)
        (repr : pyval -> string)
        (search_pubs : string -> result (list (result pyval)))
        (df : DataFrame) (names : list pyval)
        (technology_choice top_n_choice sort_choice : nat) (button : bool) :
  main_script to_number argsort repr search_pubs None
              technology_choice top_n_choice sort_choice button = AwaitingUpload
  /\ (forall e,
        main_script to_number argsort repr search_pubs (Some (Raise e))
                    technology_choice top_n_choice sort_choice button = FileError e)
  /\ (forallb (has_column df) required_columns = false ->
      main_script to_number argsort repr search_pubs (Some (Ok df))
                  technology_choice top_n_choice sort_choice button = MissingColumns)
  /\ (forallb (has_column df) required_columns = true ->
      get_column df "Technology Name" = Ok names ->
      forallb isna names = true ->
      main_script to_number argsort repr search_pubs (Some (Ok df))
                  technology_choice top_n_choice sort_choice button
      = FileError IndexError)
  /\ (forallb (has_column df) required_columns = true ->
      get_column df "Technology Name" = Ok names ->
      forallb hashable names = false ->
      main_script to_number argsort repr search_pubs (Some (Ok df))
                  technology_choice top_n_choice sort_choice button
      = FileError TypeError).
Proof.
  split; [reflexivity|]. split; [reflexivity|].
  split.
  { intros H. unfold main_script. now rewrite H. }
  split.
  - intros Hcols Hk Hall.
    destruct (get_column_pos _ _ _ Hk) as (i & Hpos & _).
    unfold main_script, sidebar, technology_names, unique.
    rewrite Hcols, Hk. cbn [bind].
    rewrite (dropna_all_missing _ Hall). cbn [forallb duplicated duplicated_from
                                               drop_masked bind].
    assert (Hs : selectbox PNone (@nil pyval) technology_choice = PNone).
    { unfold selectbox. now destruct technology_choice. }
    rewrite Hs, (select_row_of_missing df i PNone Hpos eq_refl). reflexivity.
  - intros Hcols Hk Hh.
    unfold main_script, sidebar, technology_names, unique.
    rewrite Hcols, Hk. cbn [bind].
    rewrite hashable_dropna, Hh. reflexivity.
Qed.

Lemma main_script_stops_before_the_search_witness :
  main_script plain_integer Npy.argsort repr_unused (fun _ => Ok [])
              (Some (Ok (mkDF required_columns
                              [[PStr "Upstream"; PStr "Capture"; PNone];
                               [PStr "Midstream"; PStr "Detect"; PNaN]])))
              0 0 0 true
  = FileError IndexError.
Proof.
  exact (proj1 (proj2 (proj2 (proj2
           (main_script_stops_before_the_search
              plain_integer Npy.argsort repr_unused (fun _ => Ok [])
              (mkDF required_columns
                    [[PStr "Upstream"; PStr "Capture"; PNone];
                     [PStr "Midstream"; PStr "Detect"; PNaN]])
              [PNone; PNaN] 0 0 0 true))))
         eq_refl eq_refl eq_refl).
Defined.
